(** * bdgd-tools: the transformer mapping engine and formatter

    A shallow embedding of [bdgd_tools/model/Transformer.py]: the
    [Transformer] entity, its voltage selection ([kvs]), its OpenDSS
    serialisation ([full_string]) and the rule interpreter that builds one
    entity per row of the UNTRMT table ([create_transformer_from_json]).

    The file has three layers:
    - [Py]: the fragment of Python the class relies on (dynamic values,
      binary64 arithmetic, [str], [format(x, '.3f')], [==], [eval] on
      arithmetic text);
    - the [Transformer] class itself, one definition per method;
    - the properties of the class. *)

From Stdlib Require Import ZArith QArith Qround Ascii String List Bool Lia.
From Stdlib Require Import DecimalString.
From Stdlib Require Import Floats.SpecFloat.
From stdpp Require Import base option list strings gmap.

Local Open Scope Z_scope.

(** ** Python values and exceptions *)

Module Py.

(** Python's [float] is IEEE 754 binary64; [spec_float] with precision 53
    and maximal exponent 1024 is exactly that format, and its operations
    round to nearest, ties to even, like the hardware does. *)
Definition prec : Z := 53.
Definition emax : Z := 1024.

(** The values an attribute of the entity, a cell of a row or a JSON
    scalar can hold.  [VObject] stands for an object with no arithmetic
    and no textual form of interest, such as the [property] object that
    the dataclass picks up as default of [v_pri] and [v_sec]. *)
Inductive value : Type :=
| VNone
| VBool (b : bool)
| VInt (z : Z)
| VFloat (f : spec_float)
| VStr (s : string)
| VObject (name : string).

(** The built-in exceptions the modelled code can raise.  [Unsupported]
    is not a Python exception: [eval] returns it on text that lies outside
    the arithmetic fragment this development gives a meaning to. *)
Inductive exn : Type :=
| KeyError (key : string)
| TypeError (msg : string)
| ValueError (msg : string)
| NameError (name : string)
| SyntaxError
| ZeroDivisionError
| OverflowError
| UnboundLocalError (name : string)
| AttributeError (name : string)
| Unsupported.

Inductive result (A : Type) : Type :=
| Ok (a : A)
| Raise (e : exn).
Arguments Ok {A} a.
Arguments Raise {A} e.

Global Instance result_ret : MRet result := fun A a => Ok a.
Global Instance result_bind : MBind result := fun A B k r =>
  match r with
  | Ok a => k a
  | Raise e => Raise e
  end.
Global Instance result_fmap : FMap result := fun A B f r =>
  match r with
  | Ok a => Ok (f a)
  | Raise e => Raise e
  end.

Definition is_ok {A : Type} (r : result A) : bool :=
  match r with Ok _ => true | Raise _ => false end.

Global Instance spec_float_eq_dec : EqDecision spec_float.
Proof. solve_decision. Defined.
Global Instance value_eq_dec : EqDecision value.
Proof. solve_decision. Defined.
Global Instance exn_eq_dec : EqDecision exn.
Proof. solve_decision. Defined.
Global Instance result_eq_dec {A : Type} `{EqDecision A} : EqDecision (result A).
Proof. solve_decision. Defined.

(** ** Decimal text of integers *)

Definition digit_char (d : Z) : ascii := ascii_of_nat (48 + Z.to_nat d).

Definition is_digit (c : ascii) : bool :=
  let n := nat_of_ascii c in (48 <=? n)%nat && (n <=? 57)%nat.

(** The decimal digits of a natural number. *)
Definition str_N (n : N) : string := NilZero.string_of_uint (N.to_uint n).

(** [str(z)] for an [int]. *)
Definition str_int (z : Z) : string :=
  if z <? 0 then "-" +:+ str_N (Z.to_N (- z)) else str_N (Z.to_N z).

(** ** binary64 arithmetic *)

Definition float_of_int (z : Z) : spec_float := binary_normalize prec emax z 0 false.

(** The correctly rounded quotient of two integers, [d] positive. *)
Definition float_of_ratio (n : Z) (d : positive) : spec_float :=
  match n with
  | Z0 => S754_zero false
  | Zpos p => SFdiv prec emax (S754_finite false p 0) (S754_finite false d 0)
  | Zneg p => SFdiv prec emax (S754_finite true p 0) (S754_finite false d 0)
  end.

(** The float denoted by the decimal [m * 10 ^ k], as Python's parser of
    literals gives it (correct rounding).  A decimal beyond [10 ^ 400] is
    an infinity and one below [2 ^ (-1079)] is a zero, whatever its digits
    are; these two cases are settled without computing the power. *)
Definition float_of_decimal (m : Z) (k : Z) : spec_float :=
  if m =? 0 then S754_zero false
  else if 400 <? k then S754_infinity (m <? 0)
  else if Z.log2 (Z.abs m) + 3 * k <? -1080 then S754_zero (m <? 0)
  else
    match k with
    | Zneg p => float_of_ratio m (Pos.pow 10 p)
    | _ => float_of_int (m * 10 ^ k)
    end.

Definition is_finite (f : spec_float) : bool :=
  match f with
  | S754_zero _ | S754_finite _ _ _ => true
  | _ => false
  end.

Definition is_zero (f : spec_float) : bool :=
  match f with S754_zero _ => true | _ => false end.

(** The exact rational value of a finite float. *)
Definition Q_of_float (f : spec_float) : Q :=
  match f with
  | S754_finite s m e =>
      let a := (inject_Z (Zpos m) * Qpower (2 # 1) e)%Q in
      if s then Qopp a else a
  | _ => 0%Q
  end.

(** [3 ** 0.5]: the compiler folds it to the double nearest to the square
    root of three, 0x1.bb67ae8584caap+0. *)
Definition sqrt3 : spec_float := SFsqrt prec emax (float_of_int 3).

(** ** [repr] of a float

    Python prints a float as the shortest decimal text that reads back as
    the same float and, among the shortest, the one closest to the exact
    value.  A decimal reads back as [m * 2 ^ e] when it lies within half a
    gap of it, the bounds included when [m] is even. *)

Definition pow10 (k : Z) : Q := Qpower (10 # 1) k.

Definition Qltb (a b : Q) : bool := negb (Qle_bool b a).

(** Below a power of two the neighbouring float is twice as close. *)
Definition half_gap_below (m : positive) (e : Z) : Q :=
  if (Zpos m =? 2 ^ (prec - 1)) && (emin prec emax <? e)
  then Qpower (2 # 1) (e - 2) else Qpower (2 # 1) (e - 1).

Definition half_gap_above (e : Z) : Q := Qpower (2 # 1) (e - 1).

Definition reads_back (m : positive) (e : Z) (c : Q) : bool :=
  let x := Q_of_float (S754_finite false m e) in
  let lo := (x - half_gap_below m e)%Q in
  let hi := (x + half_gap_above e)%Q in
  if Z.even (Zpos m) then Qle_bool lo c && Qle_bool c hi
  else Qltb lo c && Qltb c hi.

(** [ilog10 x] is the [p] with [10 ^ p <= x < 10 ^ (p + 1)], found from
    an estimate that is off by one at most. *)
Fixpoint adjust_log10 (steps : nat) (x : Q) (p : Z) : Z :=
  match steps with
  | O => p
  | S n =>
      if Qle_bool (pow10 (p + 1)) x then adjust_log10 n x (p + 1)
      else if Qle_bool (pow10 p) x then p
      else adjust_log10 n x (p - 1)
  end.

Definition ilog10 (m : positive) (e : Z) : Z :=
  let e2 := Zpos (digits2_pos m) + e - 1 in
  adjust_log10 4 (Q_of_float (S754_finite false m e)) (e2 * 30103 / 100000).

(** The decimal with [n] significant digits nearest to [m * 2 ^ e] among
    those that read back as it, as a pair [(d, k)] standing for
    [d * 10 ^ k]. *)
Definition nearest_digits (m : positive) (e : Z) (n : Z) (must_read_back : bool)
  : option (Z * Z) :=
  let x := Q_of_float (S754_finite false m e) in
  let k := ilog10 m e - (n - 1) in
  let y := (x * pow10 (- k))%Q in
  let dlo := Qfloor y in
  let dhi := Qceiling y in
  let clo := (inject_Z dlo * pow10 k)%Q in
  let chi := (inject_Z dhi * pow10 k)%Q in
  let vlo := negb must_read_back || reads_back m e clo in
  let vhi := negb must_read_back || reads_back m e chi in
  match vlo, vhi with
  | true, true =>
      match Qcompare (x - clo) (chi - x) with
      | Lt => Some (dlo, k)
      | Gt => Some (dhi, k)
      | Eq => Some (if Z.even dlo then dlo else dhi, k)
      end
  | true, false => Some (dlo, k)
  | false, true => Some (dhi, k)
  | false, false => None
  end.

(** Seventeen digits always read back, so the search stops there. *)
Fixpoint shortest_digits (more : nat) (m : positive) (e : Z) (n : Z) : Z * Z :=
  match more with
  | O => default (0, 0) (nearest_digits m e n false)
  | S more' =>
      match nearest_digits m e n true with
      | Some r => r
      | None => shortest_digits more' m e (n + 1)
      end
  end.

Fixpoint strip_zeros (steps : nat) (d k : Z) : Z * Z :=
  match steps with
  | O => (d, k)
  | S n => if (d mod 10 =? 0) && negb (d =? 0) then strip_zeros n (d / 10) (k + 1) else (d, k)
  end.

Fixpoint zeros (n : nat) : string :=
  match n with
  | O => ""
  | S n' => String "0" (zeros n')
  end.

Definition str_exponent (x : Z) : string :=
  let a := str_N (Z.to_N (Z.abs x)) in
  (if x <? 0 then "-" else "+") +:+ (if Z.abs x <? 10 then "0" +:+ a else a).

(** The layout of [repr]: plain notation when the decimal point falls
    within the digits or at most four places before or sixteen after their
    start, scientific notation otherwise. *)
Definition layout_repr (d k : Z) : string :=
  let ds := str_N (Z.to_N d) in
  let nd := String.length ds in
  let decpt := Z.of_nat nd + k in
  if (decpt <=? -4) || (16 <? decpt) then
    substring 0 1 ds
    +:+ (if (nd =? 1)%nat then "" else "." +:+ substring 1 (nd - 1) ds)
    +:+ "e" +:+ str_exponent (decpt - 1)
  else if decpt <=? 0 then "0." +:+ zeros (Z.to_nat (- decpt)) +:+ ds
  else if Z.of_nat nd <=? decpt then ds +:+ zeros (Z.to_nat decpt - nd) +:+ ".0"
  else substring 0 (Z.to_nat decpt) ds +:+ "." +:+ substring (Z.to_nat decpt) (nd - Z.to_nat decpt) ds.

Definition repr_float (f : spec_float) : string :=
  match f with
  | S754_nan => "nan"
  | S754_infinity s => if s then "-inf" else "inf"
  | S754_zero s => if s then "-0.0" else "0.0"
  | S754_finite s m e =>
      let '(d, k) := shortest_digits 16 m e 1 in
      let '(d, k) := strip_zeros 17 d k in
      (if s then "-" else "") +:+ layout_repr d k
  end.

(** ** [format(x, '.3f')] *)

(** The integer nearest to a non-negative rational, ties to even. *)
Definition round_half_even (q : Q) : Z :=
  let f := Qfloor q in
  match Qcompare (2 * (q - inject_Z f)) 1 with
  | Lt => f
  | Gt => f + 1
  | Eq => if Z.even f then f else f + 1
  end.

Definition three_digits (n : Z) : string :=
  String (digit_char (n / 100 mod 10))
    (String (digit_char (n / 10 mod 10))
       (String (digit_char (n mod 10)) "")).

(** Fixed notation with three decimals of the thousandths [n >= 0]. *)
Definition fixed3 (neg : bool) (n : Z) : string :=
  (if neg then "-" else "") +:+ str_N (Z.to_N (n / 1000)) +:+ "." +:+ three_digits (n mod 1000).

Definition format_3f_float (f : spec_float) : string :=
  match f with
  | S754_nan => "nan"
  | S754_infinity s => if s then "-inf" else "inf"
  | S754_zero s => fixed3 s 0
  | S754_finite s m e =>
      fixed3 s (round_half_even (Q_of_float (S754_finite false m e) * 1000))
  end.

(** ** Operations on values *)

(** [str(v)], which is also what an f-string field [{v}] expands to.  The
    text of a [VObject] carries an address in Python; it is left out. *)
Definition py_str (v : value) : string :=
  match v with
  | VNone => "None"
  | VBool b => if b then "True" else "False"
  | VInt z => str_int z
  | VFloat f => repr_float f
  | VStr s => s
  | VObject name => "<" +:+ name +:+ " object>"
  end.

(** [str] of an [int] of more than 4300 digits raises under the default
    limit of the interpreter, and the text of an object carries an
    address: [py_str] is the text Python gives for the other values.  An
    [int] below [2 ^ 14000] has fewer digits than that, which spares the
    comparison with the power of ten. *)
Definition max_str_digits : Z := 4300.

Definition has_text (v : value) : bool :=
  match v with
  | VObject _ => false
  | VInt z =>
      if Z.log2 (Z.abs z) <? 14000 then true else Z.abs z <? 10 ^ max_str_digits
  | _ => true
  end.
Arguments has_text : simpl never.

(** [format(v, '.3f')]: an [int] is converted to a float first. *)
Definition py_format_3f (v : value) : result string :=
  let of_int z :=
    let f := float_of_int z in
    if is_finite f then Ok (format_3f_float f) else Raise OverflowError in
  match v with
  | VFloat f => Ok (format_3f_float f)
  | VInt z => of_int z
  | VBool b => of_int (if b then 1 else 0)
  | VStr _ => Raise (ValueError "Unknown format code 'f' for object of type 'str'")
  | VNone => Raise (TypeError "unsupported format string passed to NoneType.__format__")
  | VObject _ => Raise (TypeError "unsupported format string passed to object.__format__")
  end.

(** Numbers: [bool] is a subtype of [int]. *)
Inductive number : Type :=
| NInt (z : Z)
| NFloat (f : spec_float).

Definition as_number (v : value) : option number :=
  match v with
  | VBool b => Some (NInt (if b then 1 else 0))
  | VInt z => Some (NInt z)
  | VFloat f => Some (NFloat f)
  | _ => None
  end.

Definition value_of_number (n : number) : value :=
  match n with
  | NInt z => VInt z
  | NFloat f => VFloat f
  end.

(** [float(z)] raises when [z] is beyond the range of a double. *)
Definition to_float (n : number) : result spec_float :=
  match n with
  | NFloat f => Ok f
  | NInt z =>
      let f := float_of_int z in
      if is_finite f then Ok f else Raise OverflowError
  end.

(** [a == b].  An [int] and a [float] are compared by their exact values;
    values of unrelated types are different. *)
Definition number_eqb (a b : number) : bool :=
  match a, b with
  | NInt x, NInt y => x =? y
  | NFloat x, NFloat y => SFeqb x y
  | NInt x, NFloat y | NFloat y, NInt x =>
      is_finite y && Qeq_bool (inject_Z x) (Q_of_float y)
  end.

Definition py_eq (a b : value) : bool :=
  match as_number a, as_number b with
  | Some x, Some y => number_eqb x y
  | _, _ =>
      match a, b with
      | VNone, VNone => true
      | VStr x, VStr y => String.eqb x y
      | VObject x, VObject y => String.eqb x y
      | _, _ => false
      end
  end.

(** [v in [x1, ..., xn]]. *)
Definition py_in (v : value) (l : list value) : bool := existsb (py_eq v) l.

Definition strs (l : list string) : list value := map VStr l.

Definition type_name (v : value) : string :=
  match v with
  | VNone => "NoneType"
  | VBool _ => "bool"
  | VInt _ => "int"
  | VFloat _ => "float"
  | VStr _ => "str"
  | VObject name => name
  end.

Definition unsupported_operand (op : string) (a b : value) : exn :=
  TypeError ("unsupported operand type(s) for " +:+ op +:+ ": '"
             +:+ type_name a +:+ "' and '" +:+ type_name b +:+ "'").

(** [a / b], true division. *)
Definition py_truediv (a b : value) : result value :=
  match as_number a, as_number b with
  | Some (NInt x), Some (NInt y) =>
      match y with
      | Z0 => Raise ZeroDivisionError
      | Zpos d =>
          match x with
          | Z0 => Ok (VFloat (S754_zero false))
          | _ =>
              let f := float_of_ratio x d in
              if is_finite f then Ok (VFloat f) else Raise OverflowError
          end
      | Zneg d =>
          match x with
          | Z0 => Ok (VFloat (S754_zero true))
          | _ =>
              let f := float_of_ratio (- x) d in
              if is_finite f then Ok (VFloat f) else Raise OverflowError
          end
      end
  | Some x, Some y =>
      fx ← to_float x;
      fy ← to_float y;
      if is_zero fy then Raise ZeroDivisionError
      else Ok (VFloat (SFdiv prec emax fx fy))
  | _, _ => Raise (unsupported_operand "/" a b)
  end.

Definition arith (op : string) (on_int : Z -> Z -> Z)
    (on_float : spec_float -> spec_float -> spec_float) (a b : value) : result value :=
  match as_number a, as_number b with
  | Some (NInt x), Some (NInt y) => Ok (VInt (on_int x y))
  | Some x, Some y =>
      fx ← to_float x;
      fy ← to_float y;
      Ok (VFloat (on_float fx fy))
  | _, _ => Raise (unsupported_operand op a b)
  end.

(** [a + b]: addition of numbers, concatenation of texts. *)
Definition py_add (a b : value) : result value :=
  match a, b with
  | VStr x, VStr y => Ok (VStr (x +:+ y))
  | _, _ => arith "+" Z.add (SFadd prec emax) a b
  end.

(** The arithmetic of [eval]: its operands are never texts. *)
Definition py_sub : value -> value -> result value := arith "-" Z.sub (SFsub prec emax).
Definition py_mul : value -> value -> result value := arith "*" Z.mul (SFmul prec emax).

Definition py_neg (a : value) : result value :=
  match as_number a with
  | Some (NInt x) => Ok (VInt (- x))
  | Some (NFloat f) => Ok (VFloat (SFopp f))
  | None => Raise (TypeError ("bad operand type for unary -: '" +:+ type_name a +:+ "'"))
  end.

Definition py_pos (a : value) : result value :=
  match as_number a with
  | Some n => Ok (value_of_number n)
  | None => Raise (TypeError ("bad operand type for unary +: '" +:+ type_name a +:+ "'"))
  end.

(** [len(range(v))]: the number of rounds of [for _ in range(v)]. *)
Definition py_range (v : value) : result nat :=
  match v with
  | VInt z => Ok (Z.to_nat z)
  | VBool b => Ok (if b then 1%nat else 0%nat)
  | _ => Raise (TypeError ("'" +:+ type_name v +:+ "' object cannot be interpreted as an integer"))
  end.

(** [sep.join(l)]. *)
Fixpoint join (sep : string) (l : list string) : string :=
  match l with
  | [] => ""
  | [x] => x
  | x :: rest => x +:+ sep +:+ join sep rest
  end.

(** ** [eval] on arithmetic text

    [eval] is given a meaning on the texts the calculated rules are meant
    to produce: decimal literals, [None], [True], [False], names, the four
    operators, unary signs and parentheses, in at most 400 characters.  On
    such a text [py_eval] returns what Python returns or raises.  Any
    other text (other operators, calls, attribute access, quotes, names
    that are bound where [eval] runs, characters outside ASCII, ...) gets
    [Raise Unsupported], which stands for no behaviour of Python: it says
    that the text lies outside the fragment.  Longer texts are left out
    because the interpreter has limits of its own on them (200 nested
    parentheses, 4300 digits in an [int], the recursion depth of the
    compiler). *)

Definition is_alpha (c : ascii) : bool :=
  let n := nat_of_ascii c in
  ((65 <=? n)%nat && (n <=? 90)%nat) || ((97 <=? n)%nat && (n <=? 122)%nat).

Definition is_name_start (c : ascii) : bool := is_alpha c || Ascii.eqb c "_".
Definition is_name_char (c : ascii) : bool := is_name_start c || is_digit c.
Definition is_space (c : ascii) : bool := Ascii.eqb c " " || Ascii.eqb c "009".

Fixpoint string_forallb (p : ascii -> bool) (s : string) : bool :=
  match s with
  | EmptyString => true
  | String c r => p c && string_forallb p r
  end.

Fixpoint string_existsb (p : ascii -> bool) (s : string) : bool :=
  match s with
  | EmptyString => false
  | String c r => p c || string_existsb p r
  end.

Definition last_char (s : string) : option ascii :=
  match String.length s with
  | O => None
  | S n => String.get n s
  end.

Inductive binop : Type := Add | Sub | Mul | Div.

Inductive token : Type :=
| TLit (v : value)
| TName (s : string)
| TOp (op : binop)
| TLParen
| TRParen.

(** *** Literals *)

(** The leading digits of [s]: their value as a number continuing [acc],
    how many they are, and what follows them. *)
Fixpoint span_digits (s : string) (acc : Z) (n : nat) : Z * nat * string :=
  match s with
  | String c r =>
      if is_digit c then span_digits r (acc * 10 + (Z.of_nat (nat_of_ascii c) - 48)) (S n)
      else (acc, n, s)
  | EmptyString => (acc, n, s)
  end.

(** The exponent part of a literal: nothing, or [e], a sign and digits. *)
Definition parse_exponent (s : string) : option (option Z) :=
  match s with
  | EmptyString => Some None
  | String c r =>
      if Ascii.eqb c "e" || Ascii.eqb c "E" then
        let '(sign, r') :=
          match r with
          | String "+" r' => (1, r')
          | String "-" r' => (-1, r')
          | _ => (1, r)
          end in
        match span_digits r' 0 0 with
        | (x, S _, EmptyString) => Some (Some (sign * x))
        | _ => None
        end
      else None
  end.

(** A decimal literal: an [int] when it has neither point nor exponent
    (then it must not start with a zero unless it is all zeros), a [float]
    otherwise. *)
Definition parse_number (w : string) : option value :=
  let '(ip, ni, r1) := span_digits w 0 0 in
  match r1 with
  | EmptyString =>
      if (0 <? ni)%nat && ((ip =? 0) || negb (String.prefix "0" w)) then Some (VInt ip) else None
  | String "." r2 =>
      let '(m, nf, r3) := span_digits r2 ip 0 in
      if (0 <? ni + nf)%nat then
        match parse_exponent r3 with
        | Some x => Some (VFloat (float_of_decimal m (default 0 x - Z.of_nat nf)))
        | None => None
        end
      else None
  | _ =>
      if (0 <? ni)%nat then
        match parse_exponent r1 with
        | Some (Some x) => Some (VFloat (float_of_decimal ip x))
        | _ => None
        end
      else None
  end.

Definition keywords : list string :=
  ["and"; "as"; "assert"; "async"; "await"; "break"; "class"; "continue";
   "def"; "del"; "elif"; "else"; "except"; "finally"; "for"; "from";
   "global"; "if"; "import"; "in"; "is"; "lambda"; "nonlocal"; "not"; "or";
   "pass"; "raise"; "return"; "try"; "while"; "with"; "yield"].

Definition mem_string (x : string) (l : list string) : bool := existsb (String.eqb x) l.

(** A maximal run of letters, digits, underscores and points (and the
    sign of an exponent) is a literal, a constant or a name. *)
Definition classify_word (w : string) : result token :=
  match w with
  | EmptyString => Raise Unsupported
  | String c _ =>
      if is_name_start c then
        if negb (string_forallb is_name_char w) then Raise Unsupported
        else if String.eqb w "None" then Ok (TLit VNone)
        else if String.eqb w "True" then Ok (TLit (VBool true))
        else if String.eqb w "False" then Ok (TLit (VBool false))
        else if mem_string w keywords then Raise Unsupported
        else Ok (TName w)
      else
        match parse_number w with
        | Some v => Ok (TLit v)
        | None => if string_forallb is_digit w then Raise SyntaxError else Raise Unsupported
        end
  end.

(** *** Tokens *)

Definition flush (cur : string) (acc : list token) : result (list token) :=
  match cur with
  | EmptyString => Ok acc
  | _ => t ← classify_word cur; Ok (t :: acc)
  end.

(** [cur] is a mantissa followed by [e]: a sign that comes next belongs
    to the literal. *)
Definition awaits_exponent_sign (cur : string) : bool :=
  match cur, last_char cur with
  | String c _, Some l =>
      (is_digit c || Ascii.eqb c ".") && (Ascii.eqb l "e" || Ascii.eqb l "E")
      && string_forallb (fun x => is_digit x || Ascii.eqb x ".")
           (substring 0 (String.length cur - 1) cur)
  | _, _ => false
  end.

Definition starts_with (c : ascii) (s : string) : bool :=
  match s with
  | String d _ => Ascii.eqb c d
  | EmptyString => false
  end.

(** The tokens of [s], last one first in [acc]; [cur] is the word being
    read. *)
Fixpoint lex (s : string) (cur : string) (acc : list token) : result (list token) :=
  match s with
  | EmptyString => acc' ← flush cur acc; Ok (rev acc')
  | String c r =>
      if is_name_char c || Ascii.eqb c "." then lex r (cur +:+ String c "") acc
      else if (Ascii.eqb c "+" || Ascii.eqb c "-") && awaits_exponent_sign cur
      then lex r (cur +:+ String c "") acc
      else
        acc' ← flush cur acc;
        if is_space c then lex r "" acc'
        else if Ascii.eqb c "(" then lex r "" (TLParen :: acc')
        else if Ascii.eqb c ")" then lex r "" (TRParen :: acc')
        else if Ascii.eqb c "+" then lex r "" (TOp Add :: acc')
        else if Ascii.eqb c "-" then lex r "" (TOp Sub :: acc')
        else if Ascii.eqb c "*" then
          if starts_with "*" r then Raise Unsupported else lex r "" (TOp Mul :: acc')
        else if Ascii.eqb c "/" then
          if starts_with "/" r then Raise Unsupported else lex r "" (TOp Div :: acc')
        else Raise Unsupported
  end.

(** *** Syntax *)

Inductive expr : Type :=
| ELit (v : value)
| EName (s : string)
| EUnary (negative : bool) (e : expr)
| EBinary (op : binop) (l r : expr).

(** What waits on the operator stack. *)
Inductive pending : Type :=
| PBinary (op : binop)
| PUnary (negative : bool)
| PParen.

Definition level (op : binop) : nat :=
  match op with
  | Add | Sub => 1%nat
  | Mul | Div => 2%nat
  end.

(** Apply the operators on top of the stack that bind at least as
    tightly as [lvl]; an open parenthesis stops the unwinding. *)
Fixpoint unwind (lvl : nat) (ops : list pending) (out : list expr)
  : result (list pending * list expr) :=
  match ops with
  | PUnary negative :: ops' =>
      match out with
      | e :: out' => unwind lvl ops' (EUnary negative e :: out')
      | [] => Raise Unsupported
      end
  | PBinary op :: ops' =>
      if (lvl <=? level op)%nat then
        match out with
        | r :: l :: out' => unwind lvl ops' (EBinary op l r :: out')
        | _ => Raise Unsupported
        end
      else Ok (ops, out)
  | _ => Ok (ops, out)
  end.

(** Operator-precedence parsing; [operand] tells whether an operand is
    expected next. *)
Fixpoint parse (ts : list token) (operand : bool) (ops : list pending) (out : list expr)
  : result expr :=
  match ts with
  | [] =>
      if operand then Raise SyntaxError
      else
        '(ops', out') ← unwind 0 ops out;
        match ops', out' with
        | [], [e] => Ok e
        | PParen :: _, _ => Raise SyntaxError
        | _, _ => Raise Unsupported
        end
  | t :: ts' =>
      match t, operand with
      | TLit v, true => parse ts' false ops (ELit v :: out)
      | TName x, true => parse ts' false ops (EName x :: out)
      | TOp Add, true => parse ts' true (PUnary false :: ops) out
      | TOp Sub, true => parse ts' true (PUnary true :: ops) out
      | TLParen, true => parse ts' true (PParen :: ops) out
      | TRParen, true =>
          match ops with
          | PParen :: _ => Raise Unsupported
          | _ => Raise SyntaxError
          end
      | TOp _, true => Raise SyntaxError
      | TOp op, false =>
          '(ops', out') ← unwind (level op) ops out;
          parse ts' true (PBinary op :: ops') out'
      | TRParen, false =>
          '(ops', out') ← unwind 0 ops out;
          match ops' with
          | PParen :: ops'' => parse ts' false ops'' out'
          | _ => Raise SyntaxError
          end
      | TLParen, false => Raise Unsupported
      | (TLit _ | TName _), false => Raise SyntaxError
      end
  end.

(** *** Evaluation *)

(** Names bound where [eval] runs: the locals of [_process_calculated],
    the globals of the module and the built-ins.  Their values are
    objects outside [value]. *)
Definition locals_of_process_calculated : list string :=
  ["transformer_"; "value"; "row"; "mapping_key"; "mapping_value";
   "expression"; "item"; "param_value"].

Definition module_globals : list string :=
  ["copy"; "re"; "Any"; "gpd"; "tqdm"; "create_output_file"; "dataclass";
   "Transformer"; "convert_ttranf_phases"; "convert_tfascon_bus";
   "convert_tten"; "convert_ttranf_windings"; "convert_tfascon_conn";
   "convert_tpotaprt"; "convert_tfascon_phases"; "convert_tfascon_bus_prim";
   "convert_tfascon_bus_sec"; "convert_tfascon_bus_terc";
   "convert_tfascon_phases_trafo"; "__name__"; "__doc__"; "__package__";
   "__loader__"; "__spec__"; "__file__"; "__cached__"; "__builtins__"].

Definition builtin_names : list string :=
  [
   "ArithmeticError"; "AssertionError"; "AttributeError"; "BaseException";
   "BaseExceptionGroup"; "BlockingIOError"; "BrokenPipeError"; "BufferError";
   "BytesWarning"; "ChildProcessError"; "ConnectionAbortedError";
   "ConnectionError"; "ConnectionRefusedError"; "ConnectionResetError";
   "DeprecationWarning"; "EOFError"; "Ellipsis"; "EncodingWarning";
   "EnvironmentError"; "Exception"; "ExceptionGroup"; "False";
   "FileExistsError"; "FileNotFoundError"; "FloatingPointError";
   "FutureWarning"; "GeneratorExit"; "IOError"; "ImportError";
   "ImportWarning"; "IndentationError"; "IndexError"; "InterruptedError";
   "IsADirectoryError"; "KeyError"; "KeyboardInterrupt"; "LookupError";
   "MemoryError"; "ModuleNotFoundError"; "NameError"; "None";
   "NotADirectoryError"; "NotImplemented"; "NotImplementedError"; "OSError";
   "OverflowError"; "PendingDeprecationWarning"; "PermissionError";
   "ProcessLookupError"; "RecursionError"; "ReferenceError";
   "ResourceWarning"; "RuntimeError"; "RuntimeWarning"; "StopAsyncIteration";
   "StopIteration"; "SyntaxError"; "SyntaxWarning"; "SystemError";
   "SystemExit"; "TabError"; "TimeoutError"; "True"; "TypeError";
   "UnboundLocalError"; "UnicodeDecodeError"; "UnicodeEncodeError";
   "UnicodeError"; "UnicodeTranslateError"; "UnicodeWarning"; "UserWarning";
   "ValueError"; "Warning"; "ZeroDivisionError"; "__build_class__";
   "__debug__"; "__import__"; "abs"; "aiter"; "all"; "anext"; "any"; "ascii";
   "bin"; "bool"; "breakpoint"; "bytearray"; "bytes"; "callable"; "chr";
   "classmethod"; "compile"; "complex"; "copyright"; "credits"; "delattr";
   "dict"; "dir"; "divmod"; "enumerate"; "eval"; "exec"; "exit"; "filter";
   "float"; "format"; "frozenset"; "getattr"; "globals"; "hasattr"; "hash";
   "help"; "hex"; "id"; "input"; "int"; "isinstance"; "issubclass"; "iter";
   "len"; "license"; "list"; "locals"; "map"; "max"; "memoryview"; "min";
   "next"; "object"; "oct"; "open"; "ord"; "pow"; "print"; "property";
   "quit"; "range"; "repr"; "reversed"; "round"; "set"; "setattr"; "slice";
   "sorted"; "staticmethod"; "str"; "sum"; "super"; "tuple"; "type"; "vars";
   "zip"].

Definition bound_name (x : string) : bool :=
  mem_string x locals_of_process_calculated
  || mem_string x module_globals
  || mem_string x builtin_names.

Definition apply_binop (op : binop) : value -> value -> result value :=
  match op with
  | Add => py_add
  | Sub => py_sub
  | Mul => py_mul
  | Div => py_truediv
  end.

(** Operands are evaluated left to right; the first exception wins. *)
Fixpoint eval_expr (e : expr) : result value :=
  match e with
  | ELit v => Ok v
  | EName x => if bound_name x then Raise Unsupported else Raise (NameError x)
  | EUnary negative a =>
      v ← eval_expr a;
      if negative then py_neg v else py_pos v
  | EBinary op l r =>
      x ← eval_expr l;
      y ← eval_expr r;
      apply_binop op x y
  end.

(** The characters of the fragment. *)
Definition fragment_char (c : ascii) : bool :=
  is_name_char c || is_space c
  || existsb (Ascii.eqb c) ["."%char; "+"%char; "-"%char; "*"%char; "/"%char;
                            "("%char; ")"%char].

Definition max_text_length : nat := 400.

Definition in_fragment (text : string) : bool :=
  (String.length text <=? max_text_length)%nat && string_forallb fragment_char text.

(** [eval(text)]. *)
Definition py_eval (text : string) : result value :=
  if in_fragment text then
    ts ← lex text "" [];
    e ← parse ts true [] [];
    eval_expr e
  else Raise Unsupported.

End Py.

Export Py.

(** ** The [Transformer] class

    An instance is its attribute dictionary.  The class is a plain
    dataclass, so [setattr] may add any attribute; every property [x] of
    the class reads and writes the attribute [_x]. *)

Abbreviation transformer := (gmap string value).
Abbreviation row := (gmap string value).

(** The double quote and the line feed of the output grammar. *)
Definition dq : string := String (ascii_of_nat 34) EmptyString.
Definition nl : string := String (ascii_of_nat 10) EmptyString.

(** [Transformer()]: the defaults of the dataclass fields, assigned in
    declaration order.  [v_pri] and [v_sec] are redefined as properties
    further down the class body, so the default the dataclass records for
    them is the property object itself, which the generated [__init__]
    stores through the setter into [_v_pri] and [_v_sec]. *)
Definition new_transformer : transformer :=
  list_to_map
    [("_feeder", VStr ""); ("_bus1", VStr ""); ("_bus2", VStr ""); ("_bus3", VStr "");
     ("_suffix_bus1", VStr ""); ("_suffix_bus2", VStr ""); ("_suffix_bus3", VStr "");
     ("_transformer", VStr ""); ("_ten_lin_se", VStr "");
     ("_lig_fas_p", VStr ""); ("_lig_fas_s", VStr ""); ("_lig_fas_t", VStr "");
     ("_v_pri", VObject "property"); ("_v_sec", VObject "property");
     ("_tap", VFloat (S754_zero false)); ("_MRT", VInt 0); ("_tip_trafo", VStr "");
     ("_phases", VInt 0);
     ("_bus1_nodes", VStr ""); ("_bus2_nodes", VStr ""); ("_bus3_nodes", VStr "");
     ("_windings", VStr "");
     ("_conn_p", VStr ""); ("_conn_s", VStr ""); ("_conn_t", VStr "");
     ("_kvas", VInt 0);
     ("_loadloss", VFloat (S754_zero false)); ("_noloadloss", VFloat (S754_zero false));
     ("_kvs", VStr "")].

(** [self.<name>] for an attribute held in the instance dictionary. *)
Definition getattr (self : transformer) (name : string) : result value :=
  match self !! name with
  | Some v => Ok v
  | None => Raise (AttributeError name)
  end.

(** The assignment [self.<name> = v] of an attribute that the instance
    holds in its dictionary. *)
Definition assign (self : transformer) (name : string) (v : value) : transformer :=
  <[name := v]> self.

(** The attributes that the type keeps for itself: they are not entries
    of the instance dictionary. *)
Definition special_attribute (name : string) : bool :=
  String.eqb name "__class__" || String.eqb name "__dict__" || String.eqb name "__weakref__".

(** [setattr(self, name, v)].  [__class__] and [__dict__] accept a class
    and a dictionary only, which no value here is, and [__weakref__]
    cannot be written; any other name is assigned. *)
Definition setattr (self : transformer) (name : string) (v : value) : result transformer :=
  if String.eqb name "__class__" then
    Raise (TypeError ("__class__ must be set to a class, not '" +:+ type_name v +:+ "' object"))
  else if String.eqb name "__dict__" then
    Raise (TypeError ("__dict__ must be set to a dictionary, not a '" +:+ type_name v +:+ "'"))
  else if String.eqb name "__weakref__" then Raise (AttributeError "__weakref__")
  else Ok (assign self name v).

Definition phase_to_neutral : list value :=
  strs ["A"; "B"; "C"; "AN"; "BN"; "CN"; "ABN"; "BCN"; "CAN"; "ABCN"].
Definition phase_to_phase : list value := strs ["AB"; "BC"; "CA"; "ABC"].

Definition voltage_enroll (cod_phase voltage_kv : value) : result value :=
  if py_in cod_phase phase_to_neutral then py_truediv voltage_kv (VFloat sqrt3)
  else if py_in cod_phase phase_to_phase then Ok (VStr (py_str voltage_kv))
  else Ok VNone.

Definition voltage_enroll_sec (cod_phase voltage_kv : value) : result value :=
  if py_in cod_phase (strs ["A"; "B"; "C"; "AN"; "BN"; "CN"]) then Ok voltage_kv
  else if py_in cod_phase (strs ["ABN"; "BCN"; "CAN"; "ABCN"])
  then py_truediv voltage_kv (VFloat sqrt3)
  else if py_in cod_phase phase_to_phase then Ok (VStr (py_str voltage_kv))
  else Ok VNone.

(** The method [kvs].  The [print] of its last branch writes to the
    console only and is left out. *)
Definition kvs (self : transformer) : result value :=
  tip_trafo ← getattr self "_tip_trafo";
  if py_eq tip_trafo (VStr "MT") then
    v_pri ← getattr self "_v_pri";
    v_sec ← getattr self "_v_sec";
    Ok (VStr (py_str v_pri +:+ " " +:+ py_str v_sec))
  else
    lig_fas_t ← getattr self "_lig_fas_t";
    second ←
      (if py_in lig_fas_t (strs ["BN"; "CN"; "AN"]) then Ok true
       else lig_fas_s ← getattr self "_lig_fas_s"; Ok (py_eq lig_fas_s (VStr "ABN")));
    if second : bool then
      lig_fas_p ← getattr self "_lig_fas_p";
      v_pri ← getattr self "_v_pri";
      primary ← voltage_enroll lig_fas_p v_pri;
      v_sec ← getattr self "_v_sec";
      half ← py_truediv v_sec (VInt 2);
      half' ← py_truediv v_sec (VInt 2);
      Ok (VStr (py_str primary +:+ " " +:+ py_str half +:+ " " +:+ py_str half'))
    else
      lig_fas_s ← getattr self "_lig_fas_s";
      if py_eq lig_fas_t (VStr "XX")
         && py_in lig_fas_s (strs ["AN"; "BN"; "CN"; "AB"; "BC"; "CA"; "AC"; "ABC"])
      then
        lig_fas_p ← getattr self "_lig_fas_p";
        v_pri ← getattr self "_v_pri";
        primary ← voltage_enroll lig_fas_p v_pri;
        v_sec ← getattr self "_v_sec";
        secondary ← voltage_enroll_sec lig_fas_s v_sec;
        Ok (VStr (py_str primary +:+ " " +:+ py_str secondary))
      else if py_eq lig_fas_t (VStr "0") && py_eq lig_fas_s (VStr "ABCN") then
        lig_fas_p ← getattr self "_lig_fas_p";
        v_pri ← getattr self "_v_pri";
        primary ← voltage_enroll lig_fas_p v_pri;
        v_sec ← getattr self "_v_sec";
        py_add primary (VStr (py_str v_sec))
      else Ok (VStr "").

(** [self.kvs()]: an instance attribute named [kvs] hides the method, and
    no value of the model can be called. *)
Definition call_kvs (self : transformer) : result value :=
  match self !! "kvs" with
  | Some v => Raise (TypeError ("'" +:+ type_name v +:+ "' object is not callable"))
  | None => kvs self
  end.

Definition pattern_reactor (self : transformer) : result string :=
  id ← getattr self "_transformer";
  bus2 ← getattr self "_bus2";
  Ok ("New " +:+ dq +:+ "Reactor.TRF_" +:+ py_str id +:+ dq +:+ " phases=1 bus1=" +:+ dq
      +:+ py_str bus2 +:+ ".4" +:+ dq +:+ " R=15 X=0 basefreq=60").

Definition linecode_MRT (id : string) (n : string) : string :=
  "New " +:+ dq +:+ "Linecode.LC_MRT_TRF_" +:+ id +:+ "_" +:+ n +:+ dq +:+ " nphases=" +:+ n
  +:+ " basefreq=60 r1=15000 x1=0 units=km normamps=0" +:+ nl.

Definition pattern_MRT (self : transformer) : result string :=
  id ← getattr self "_transformer";
  bus1 ← getattr self "_bus1";
  bus1_nodes ← getattr self "_bus1_nodes";
  Ok (linecode_MRT (py_str id) "1" +:+ linecode_MRT (py_str id) "2"
      +:+ linecode_MRT (py_str id) "3" +:+ linecode_MRT (py_str id) "4"
      +:+ "New " +:+ dq +:+ "Line.Resist_MTR_TRF_" +:+ py_str id +:+ dq
      +:+ " phases=1 bus1=" +:+ dq +:+ py_str bus1 +:+ "." +:+ py_str bus1_nodes +:+ dq
      +:+ " bus2=" +:+ dq +:+ "MRT_" +:+ py_str bus1 +:+ "TRF_" +:+ py_str id +:+ "."
      +:+ py_str bus1_nodes +:+ dq
      +:+ " linecode=" +:+ dq +:+ "LC_MRT_TRF_" +:+ py_str id +:+ "_1" +:+ dq
      +:+ " length=0.001 units=km" +:+ nl).

(** One entry ["<bus>.<nodes>"] of the list of buses. *)
Definition bus_entry (bus nodes : string) : string := dq +:+ bus +:+ "." +:+ nodes +:+ dq.

(** [' '.join([f'{self.<name>}' for _ in range(n)])]. *)
Definition repeated (self : transformer) (name : string) (n : nat) : result string :=
  match n with
  | O => Ok ""
  | S _ => v ← getattr self name; Ok (join " " (replicate n (py_str v)))
  end.

Definition adapting_string_variables (self : transformer)
  : result (value * string * string * string * string * string) :=
  mrt ← getattr self "_MRT";
  bus3 ← getattr self "_bus3";
  bus1 ← getattr self "_bus1";
  '(buses, conns, MRT) ←
    (if py_eq mrt (VInt 1) then
       if negb (py_eq bus3 (VStr "0")) then
         id ← getattr self "_transformer";
         n1 ← getattr self "_bus1_nodes";
         bus2 ← getattr self "_bus2";
         n2 ← getattr self "_bus2_nodes";
         n3 ← getattr self "_bus3_nodes";
         conn_p ← getattr self "_conn_p";
         conn_s ← getattr self "_conn_s";
         conn_t ← getattr self "_conn_t";
         MRT ← pattern_MRT self;
         Ok (bus_entry ("MRT_" +:+ py_str bus1 +:+ "TRF_" +:+ py_str id) (py_str n1) +:+ " "
             +:+ bus_entry (py_str bus2) (py_str n2) +:+ " "
             +:+ bus_entry (py_str bus3) (py_str n3) +:+ " ",
             py_str conn_p +:+ " " +:+ py_str conn_s +:+ " " +:+ py_str conn_t, MRT)
       else
         id ← getattr self "_transformer";
         n1 ← getattr self "_bus1_nodes";
         bus2 ← getattr self "_bus2";
         n2 ← getattr self "_bus2_nodes";
         conn_p ← getattr self "_conn_p";
         conn_s ← getattr self "_conn_s";
         MRT ← pattern_MRT self;
         Ok (bus_entry ("MRT_" +:+ py_str bus1 +:+ "TRF_" +:+ py_str id) (py_str n1) +:+ " "
             +:+ bus_entry (py_str bus2) (py_str n2) +:+ " ",
             py_str conn_p +:+ " " +:+ py_str conn_s, MRT)
     else
       if negb (py_eq bus3 (VStr "0")) then
         n1 ← getattr self "_bus1_nodes";
         bus2 ← getattr self "_bus2";
         n2 ← getattr self "_bus2_nodes";
         n3 ← getattr self "_bus3_nodes";
         conn_p ← getattr self "_conn_p";
         conn_s ← getattr self "_conn_s";
         conn_t ← getattr self "_conn_t";
         Ok (bus_entry (py_str bus1) (py_str n1) +:+ " "
             +:+ bus_entry (py_str bus2) (py_str n2) +:+ " "
             +:+ bus_entry (py_str bus3) (py_str n3),
             py_str conn_p +:+ " " +:+ py_str conn_s +:+ " " +:+ py_str conn_t, "")
       else
         n1 ← getattr self "_bus1_nodes";
         bus2 ← getattr self "_bus2";
         n2 ← getattr self "_bus2_nodes";
         conn_p ← getattr self "_conn_p";
         conn_s ← getattr self "_conn_s";
         Ok (bus_entry (py_str bus1) (py_str n1) +:+ " "
             +:+ bus_entry (py_str bus2) (py_str n2),
             py_str conn_p +:+ " " +:+ py_str conn_s, ""));
  windings ← getattr self "_windings";
  n ← py_range windings;
  kvas ← repeated self "_kvas" n;
  n' ← py_range windings;
  taps ← repeated self "_tap" n';
  k ← call_kvs self;
  Ok (k, buses, conns, kvas, taps, MRT).

(** The assignment that opens [full_string]: [kvs], [buses], [conns] and
    [taps] become instance attributes, and [kvas], being a property, is
    written through its setter into [_kvas]. *)
Definition store_strings (self : transformer) (k : value) (buses conns kvas taps : string)
  : transformer :=
  assign (assign (assign (assign (assign self "kvs" k) "buses" (VStr buses))
                      "conns" (VStr conns)) "_kvas" (VStr kvas)) "taps" (VStr taps).

(** The f-string that [full_string] returns. *)
Definition render (self : transformer) (MRT : string) : result string :=
  id ← getattr self "_transformer";
  phases ← getattr self "_phases";
  windings ← getattr self "_windings";
  buses ← getattr self "buses";
  conns ← getattr self "conns";
  k ← getattr self "kvs";
  taps ← getattr self "taps";
  kvas ← getattr self "_kvas";
  loadloss ← getattr self "_loadloss";
  ll ← py_format_3f loadloss;
  noloadloss ← getattr self "_noloadloss";
  nll ← py_format_3f noloadloss;
  reactor ← pattern_reactor self;
  Ok ("New " +:+ dq +:+ "Transformer.TRF_" +:+ py_str id +:+ dq +:+ " phases=" +:+ py_str phases +:+ " "
      +:+ "windings=" +:+ py_str windings +:+ " "
      +:+ "buses=[" +:+ py_str buses +:+ "] "
      +:+ "conns=[" +:+ py_str conns +:+ "] "
      +:+ "kvs=[" +:+ py_str k +:+ "] "
      +:+ "taps=[" +:+ py_str taps +:+ "] "
      +:+ "kvas=[" +:+ py_str kvas +:+ "] "
      +:+ "%loadloss=" +:+ ll +:+ " %noloadloss=" +:+ nll +:+ nl
      +:+ MRT
      +:+ reactor).

(** [full_string] returns its text or raises, and leaves the instance in
    the state given as second component. *)
Definition full_string (self : transformer) : result string * transformer :=
  match adapting_string_variables self with
  | Raise e => (Raise e, self)
  | Ok (k, buses, conns, kvas, taps, MRT) =>
      let self' := store_strings self k buses conns kvas taps in
      (render self' MRT, self')
  end.

(** ** The mapping configuration

    The value of [elements.Transformer.UNTRMT] in the configuration
    document, as the ordered list of its entries.  A JSON object has each
    key once, so a well-formed configuration has at most one section of
    each kind. *)

Inductive indirect_rule : Type :=
| Column (column : string)
| Convert (column function_name : string).

(** A token of a calculated rule: a JSON text or another JSON scalar. *)
Inductive item : Type :=
| IStr (s : string)
| ILit (v : value).

Inductive section : Type :=
| Static (rules : list (string * value))
| DirectMapping (rules : list (string * string))
| IndirectMapping (rules : list (string * indirect_rule))
| Calculated (rules : list (string * list item))
| Arquivo (file_name : string)
| OtherKey (key : string).

Abbreviation config := (list section).





(** [row[column]] on a pandas series. *)
Definition row_get (r : row) (column : string) : result value :=
  match r !! column with
  | Some v => Ok v
  | None => Raise (KeyError column)
  end.

(** [transformer_config["arquivo"]]. *)
Fixpoint arquivo (c : config) : result string :=
  match c with
  | [] => Raise (KeyError "arquivo")
  | Arquivo name :: _ => Ok name
  | _ :: c' => arquivo c'
  end.

(** ** The rule interpreter *)

Section Interpreter.

(** The global namespace of the module: what [globals()[name]] holds, as
    the effect of calling it on one text.  The conversion functions come
    from [bdgd_tools.model.Converter], which is outside the source tree,
    so the namespace is a parameter. *)
Variable namespace : string -> option (string -> result value).

Fixpoint _process_static (transformer_ : transformer) (value : list (string * value))
  : result transformer :=
  match value with
  | [] => Ok transformer_
  | (static_key, static_value) :: rest =>
      t ← setattr transformer_ ("_" +:+ static_key) static_value;
      _process_static t rest
  end.

Fixpoint _process_direct_mapping (transformer_ : transformer) (value : list (string * string))
    (r : row) : result transformer :=
  match value with
  | [] => Ok transformer_
  | (mapping_key, mapping_value) :: rest =>
      v ← row_get r mapping_value;
      t ← setattr transformer_ ("_" +:+ mapping_key) v;
      _process_direct_mapping t rest r
  end.

(** What one indirect rule stores. *)
Definition indirect_value (mapping_value : indirect_rule) (r : row) : result value :=
  match mapping_value with
  | Convert param_name function_name =>
      match namespace function_name with
      | None => Raise (KeyError function_name)
      | Some function_ =>
          param_value ← row_get r param_name;
          function_ (py_str param_value)
      end
  | Column column => row_get r column
  end.

Fixpoint _process_indirect_mapping (transformer_ : transformer)
    (value : list (string * indirect_rule)) (r : row) : result transformer :=
  match value with
  | [] => Ok transformer_
  | (mapping_key, mapping_value) :: rest =>
      v ← indirect_value mapping_value r;
      t ← setattr transformer_ ("_" +:+ mapping_key) v;
      _process_indirect_mapping t rest r
  end.

(** The field [{v}] of an f-string, for the values whose text is
    modelled. *)
Definition field (v : value) : result string :=
  if has_text v then Ok (py_str v) else Raise Unsupported.

(** The field of a token that is not a text: a number, a truth value or
    [null]. *)
Definition literal_field (v : value) : result string :=
  match v with
  | VStr _ => Raise Unsupported
  | _ => field v
  end.

Definition is_ascii (c : ascii) : bool := (nat_of_ascii c <? 128)%nat.

(** The text a calculated rule hands to [eval]: a token with a letter is
    replaced by the cell of that column, any other token is copied.
    [str.isalpha] knows the letters of every alphabet; the letters of
    ASCII are modelled, so a text with a letter among them is a column,
    a text of ASCII without a letter is copied, and any other text is
    outside the fragment. *)
Fixpoint assemble (mapping_value : list item) (r : row) (expression : string) : result string :=
  match mapping_value with
  | [] => Ok expression
  | IStr s :: rest =>
      if string_existsb is_alpha s then
        v ← row_get r s;
        text ← field v;
        assemble rest r (expression +:+ " " +:+ text)
      else if string_forallb is_ascii s then assemble rest r (expression +:+ s)
      else Raise Unsupported
  | ILit v :: rest =>
      text ← literal_field v;
      assemble rest r (expression +:+ text)
  end.

(** What one calculated rule stores. *)
Definition calculated_value (mapping_value : list item) (r : row) : result value :=
  expression ← assemble mapping_value r "";
  py_eval expression.

Fixpoint _process_calculated (transformer_ : transformer)
    (value : list (string * list item)) (r : row) : result transformer :=
  match value with
  | [] => Ok transformer_
  | (mapping_key, mapping_value) :: rest =>
      param_value ← calculated_value mapping_value r;
      t ← setattr transformer_ ("_" +:+ mapping_key) param_value;
      _process_calculated t rest r
  end.

(** One round of the loop over [transformer_config.items()]. *)
Definition process_section (transformer_ : transformer) (s : section) (r : row)
  : result transformer :=
  match s with
  | Static value => _process_static transformer_ value
  | DirectMapping value => _process_direct_mapping transformer_ value r
  | IndirectMapping value => _process_indirect_mapping transformer_ value r
  | Calculated value => _process_calculated transformer_ value r
  | Arquivo _ | OtherKey _ => Ok transformer_
  end.

Fixpoint process_sections (transformer_ : transformer) (c : config) (r : row)
  : result transformer :=
  match c with
  | [] => Ok transformer_
  | s :: c' =>
      t ← process_section transformer_ s r;
      process_sections t c' r
  end.

Definition _create_transformer_from_row (transformer_config : config) (r : row)
  : result transformer :=
  process_sections new_transformer transformer_config r.

(** ** The batch driver *)

(** What the output writer leaves behind: the feeder that names the
    destination, the name the configuration gives the file, and the
    blocks written, in order. *)
Record output_file : Type := OutputFile {
  destination : value;
  template : string;
  blocks : list string
}.

(** The name under which the writer reports the artifact; the spec does
    not fix its shape. *)
Variable artifact_id : string -> value -> string.

(** The serialisation of a list of entities, one after the other: the
    texts, and the entities as serialisation leaves them. *)
Fixpoint serialize_all (object_list : list transformer)
  : result (list string) * list transformer :=
  match object_list with
  | [] => (Ok [], [])
  | t :: rest =>
      match full_string t with
      | (Raise e, t') => (Raise e, t' :: rest)
      | (Ok text, t') =>
          let '(texts, rest') := serialize_all rest in
          (cons text <$> texts, t' :: rest')
      end
  end.

(** Modelled from the spec: [create_output_file] of
    [bdgd_tools.core.Utils], which the source tree lacks.  The spec has it
    write all entities' serialized blocks to a destination keyed by the
    feeder it is given, and return the output artifact identifier.  The
    entities are the caller's objects, so what serialisation does to them
    shows in the caller's list. *)
Definition create_output_file (object_list : list transformer) (file_name : string)
    (feeder : value) : result (output_file * string) * list transformer :=
  let '(texts, objects) := serialize_all object_list in
  (b ← texts; Ok (OutputFile feeder file_name b, artifact_id file_name feeder), objects).

(** The document: [json_data['elements'][entity][table]], the only part
    the driver reads. *)
Definition transformer_config_of (json_data : gmap string (gmap string (gmap string config)))
  : result config :=
  match json_data !! "elements" with
  | None => Raise (KeyError "elements")
  | Some elements =>
      match elements !! "Transformer" with
      | None => Raise (KeyError "Transformer")
      | Some tables =>
          match tables !! "UNTRMT" with
          | None => Raise (KeyError "UNTRMT")
          | Some c => Ok c
          end
      end
  end.

(** The loop over [dataframe.iterrows()]; the progress bar only writes to
    the console and is left out. *)
Fixpoint build_rows (transformer_config : config) (dataframe : list row)
  : result (list transformer) :=
  match dataframe with
  | [] => Ok []
  | r :: rest =>
      transformer_ ← _create_transformer_from_row transformer_config r;
      transformers ← build_rows transformer_config rest;
      Ok (transformer_ :: transformers)
  end.

(** What the batch leaves: the returned pair, and the file written. *)
Record batch : Type := Batch {
  transformers : list transformer;
  file_name : string;
  written : output_file
}.

Definition create_transformer_from_json
    (json_data : gmap string (gmap string (gmap string config))) (dataframe : list row)
  : result batch :=
  transformer_config ← transformer_config_of json_data;
  transformers ← build_rows transformer_config dataframe;
  name ← arquivo transformer_config;
  feeder ←
    match last transformers with
    | None => Raise (UnboundLocalError "transformer_")
    | Some transformer_ => getattr transformer_ "_feeder"
    end;
  let '(outcome, objects) := create_output_file transformers name feeder in
  '(file, file_name) ← outcome;
  Ok (Batch objects file_name file).

End Interpreter.

(** ** [__repr__]

    The class repeats the body of [full_string] as its [__repr__]. *)
Definition __repr__ (self : transformer) : result string * transformer :=
  match adapting_string_variables self with
  | Raise e => (Raise e, self)
  | Ok (k, buses, conns, kvas, taps, MRT) =>
      let self' := store_strings self k buses conns kvas taps in
      (render self' MRT, self')
  end.

(** ** The schema registry of [bdgd_tools/core/Core.py] *)

Module Core.

(** What [json.load] returns: an object is a dictionary in the order of
    the document, each key once. *)
#[warnings="-register-all"]
Inductive json : Type :=
| JNull
| JBool (b : bool)
| JInt (z : Z)
| JFloat (f : spec_float)
| JString (s : string)
| JArray (items : list json)
| JObject (fields : list (string * json)).

Definition json_type_name (j : json) : string :=
  match j with
  | JNull => "NoneType"
  | JBool _ => "bool"
  | JInt _ => "int"
  | JFloat _ => "float"
  | JString _ => "str"
  | JArray _ => "list"
  | JObject _ => "dict"
  end.

Fixpoint assoc (key : string) (fields : list (string * json)) : option json :=
  match fields with
  | [] => None
  | (k, x) :: rest => if String.eqb k key then Some x else assoc key rest
  end.

(** [j[key]] with a text as key. *)
Definition subscript (j : json) (key : string) : result json :=
  match j with
  | JObject fields =>
      match assoc key fields with
      | Some x => Ok x
      | None => Raise (KeyError key)
      end
  | JString _ => Raise (TypeError "string indices must be integers, not 'str'")
  | JArray _ => Raise (TypeError "list indices must be integers or slices, not str")
  | _ => Raise (TypeError ("'" +:+ json_type_name j +:+ "' object is not subscriptable"))
  end.

(** [j.items()]. *)
Definition items (j : json) : result (list (string * json)) :=
  match j with
  | JObject fields => Ok fields
  | _ => Raise (AttributeError "items")
  end.

(** The class [Table]: its constructor stores what it is given. *)
Record Table : Type := mkTable {
  name : string;
  columns : json;
  data_types : json;
  ignore_geometry : json
}.

(** The comprehension of [_create_tables], one table after the other. *)
Fixpoint tables_of (entries : list (string * json)) : result (list (string * Table)) :=
  match entries with
  | [] => Ok []
  | (table_name, table_data) :: rest =>
      c ← subscript table_data "columns";
      t ← subscript table_data "type";
      g ← subscript table_data "ignore_geometry";
      tables ← tables_of rest;
      Ok ((table_name, mkTable table_name c t g) :: tables)
  end.

(** [JsonData._create_tables], on the document held in [self.data]. *)
Definition _create_tables (data : json) : result (list (string * Table)) :=
  configuration ← subscript data "configuration";
  tables ← subscript configuration "tables";
  entries ← items tables;
  tables_of entries.

(** [sum(l)]: the additions start from the integer zero. *)
Definition py_sum (l : list value) : result value :=
  foldl (fun acc x => a ← acc; py_add a x) (Ok (VInt 0)) l.

Section Geodataframes.

(** The collaborators of [create_geodataframes]: the frames of geopandas,
    the reader of a layer, the conversion of the column types, the bytes
    a frame takes, and the readings of the clock in the order in which
    they are taken. *)
Variable frame : Type.
Variable read_file : string -> Table -> result frame.
Variable astype : frame -> json -> result frame.
Variable memory_usage_sum : frame -> value.
Variable clock : nat -> spec_float.

Record statistics : Type := mkStatistics {
  gdf : frame;
  memory_usage : value;
  load_time_avg : value;
  conversion_time_avg : value;
  stat_ignore_geometry : json
}.

(** What the inner loop has gathered so far, and the clock readings
    taken. *)
Record gathered : Type := mkGathered {
  load_times : list value;
  conversion_times : list value;
  gdf_converted : option frame;
  ticks : nat
}.

(** [n] rounds of the loop over [range(runs)] for one table. *)
Fixpoint load_runs (n : nat) (file_name : string) (table : Table) (g : gathered)
  : result gathered :=
  match n with
  | O => Ok g
  | S n' =>
      let start_time := clock (ticks g) in
      gdf_ ← read_file file_name table;
      let start_conversion_time := clock (S (ticks g)) in
      converted ← astype gdf_ (data_types table);
      let end_time := clock (S (S (ticks g))) in
      load_runs n' file_name table
        (mkGathered
           (load_times g ++ [VFloat (SFsub prec emax start_conversion_time start_time)])
           (conversion_times g ++ [VFloat (SFsub prec emax end_time start_conversion_time)])
           (Some converted)
           (S (S (S (ticks g)))))
  end.

(** The statistics of one table, after its runs. *)
Definition summarize (table : Table) (g : gathered) : result statistics :=
  load_sum ← py_sum (load_times g);
  load_avg ← py_truediv load_sum (VInt (Z.of_nat (length (load_times g))));
  conversion_sum ← py_sum (conversion_times g);
  conversion_avg ← py_truediv conversion_sum (VInt (Z.of_nat (length (conversion_times g))));
  converted ←
    match gdf_converted g with
    | Some x => Ok x
    | None => Raise (AttributeError "memory_usage")
    end;
  mem_usage ← py_truediv (memory_usage_sum converted) (VInt (1024 ^ 2));
  Ok (mkStatistics converted mem_usage load_avg conversion_avg (ignore_geometry table)).

(** The loop over [self.tables.items()]. *)
Fixpoint load_tables (tables : list (string * Table)) (file_name : string) (runs : Z)
    (ticks0 : nat) : result (list (string * statistics)) :=
  match tables with
  | [] => Ok []
  | (table_name, table) :: rest =>
      g ← load_runs (Z.to_nat runs) file_name table (mkGathered [] [] None ticks0);
      stats ← summarize table g;
      more ← load_tables rest file_name runs (ticks g);
      Ok ((table_name, stats) :: more)
  end.

(** [JsonData.create_geodataframes], for the tables held in
    [self.tables]. *)
Definition create_geodataframes (tables : list (string * Table)) (file_name : string)
    (runs : Z) : result (list (string * statistics)) :=
  load_tables tables file_name runs 0.

End Geodataframes.

Arguments gdf {frame} _.
Arguments memory_usage {frame} _.
Arguments load_time_avg {frame} _.
Arguments conversion_time_avg {frame} _.
Arguments stat_ignore_geometry {frame} _.
Arguments load_times {frame} _.
Arguments conversion_times {frame} _.
Arguments gdf_converted {frame} _.
Arguments ticks {frame} _.

End Core.

(** ** Vocabulary of the properties *)

(** *** The attributes a serialisation reads *)

Record view : Type := View {
  ident : value; bus1 : value; bus2 : value; bus3 : value;
  nodes1 : value; nodes2 : value; nodes3 : value;
  conn_p : value; conn_s : value; conn_t : value;
  mrt : value; windings : value; phases : value;
  kvas : value; tap : value; loadloss : value; noloadloss : value
}.

Definition view_of (t : transformer) : option view :=
  ident ← t !! "_transformer"; bus1 ← t !! "_bus1"; bus2 ← t !! "_bus2"; bus3 ← t !! "_bus3";
  nodes1 ← t !! "_bus1_nodes"; nodes2 ← t !! "_bus2_nodes"; nodes3 ← t !! "_bus3_nodes";
  conn_p ← t !! "_conn_p"; conn_s ← t !! "_conn_s"; conn_t ← t !! "_conn_t";
  mrt ← t !! "_MRT"; windings ← t !! "_windings"; phases ← t !! "_phases";
  kvas ← t !! "_kvas"; tap ← t !! "_tap";
  loadloss ← t !! "_loadloss"; noloadloss ← t !! "_noloadloss";
  Some (View ident bus1 bus2 bus3 nodes1 nodes2 nodes3 conn_p conn_s conn_t
          mrt windings phases kvas tap loadloss noloadloss).

(** The attributes [kvs] reads. *)
Record voltages : Type := Voltages {
  tip_trafo : value; lig_fas_p : value; lig_fas_s : value; lig_fas_t : value;
  v_pri : value; v_sec : value
}.

Definition voltages_of (t : transformer) : option voltages :=
  tip_trafo ← t !! "_tip_trafo";
  lig_fas_p ← t !! "_lig_fas_p"; lig_fas_s ← t !! "_lig_fas_s"; lig_fas_t ← t !! "_lig_fas_t";
  v_pri ← t !! "_v_pri"; v_sec ← t !! "_v_sec";
  Some (Voltages tip_trafo lig_fas_p lig_fas_s lig_fas_t v_pri v_sec).

(** *** The output grammar, as the spec words it *)

Definition mrt_flag (v : view) : bool := py_eq (mrt v) (VInt 1).
Definition third_bus (v : view) : bool := negb (py_eq (bus3 v) (VStr "0")).

(** The synthetic node that stands for bus 1 of an MRT transformer. *)
Definition mrt_node (v : view) : string :=
  "MRT_" +:+ py_str (bus1 v) +:+ "TRF_" +:+ py_str (ident v).

Definition bus_entries (v : view) : list string :=
  [bus_entry (if mrt_flag v then mrt_node v else py_str (bus1 v)) (py_str (nodes1 v));
   bus_entry (py_str (bus2 v)) (py_str (nodes2 v))]
  ++ (if third_bus v then [bus_entry (py_str (bus3 v)) (py_str (nodes3 v))] else []).

Definition conn_entries (v : view) : list string :=
  [py_str (conn_p v); py_str (conn_s v)] ++ (if third_bus v then [py_str (conn_t v)] else []).

(** The list of buses: its entries, and one more space with MRT. *)
Definition buses_text (v : view) : string :=
  join " " (bus_entries v) +:+ (if mrt_flag v then " " else "").

Definition conns_text (v : view) : string := join " " (conn_entries v).

(** A scalar repeated once per winding. *)
Definition per_winding (x : value) (n : nat) : string := join " " (replicate n (py_str x)).

(** A resistive line code for [n] phases. *)
Definition linecode_text (v : view) (n : string) : string :=
  "New " +:+ dq +:+ "Linecode.LC_MRT_TRF_" +:+ py_str (ident v) +:+ "_" +:+ n +:+ dq
  +:+ " nphases=" +:+ n +:+ " basefreq=60 r1=15000 x1=0 units=km normamps=0" +:+ nl.

(** The line from the real bus 1 to the synthetic node, of the length
    given as text. *)
Definition connecting_line (v : view) (length_km : string) : string :=
  "New " +:+ dq +:+ "Line.Resist_MTR_TRF_" +:+ py_str (ident v) +:+ dq
  +:+ " phases=1 bus1=" +:+ bus_entry (py_str (bus1 v)) (py_str (nodes1 v))
  +:+ " bus2=" +:+ bus_entry (mrt_node v) (py_str (nodes1 v))
  +:+ " linecode=" +:+ dq +:+ "LC_MRT_TRF_" +:+ py_str (ident v) +:+ "_1" +:+ dq
  +:+ " length=" +:+ length_km +:+ " units=km" +:+ nl.

Definition mrt_block (v : view) : string :=
  if mrt_flag v then
    linecode_text v "1" +:+ linecode_text v "2" +:+ linecode_text v "3" +:+ linecode_text v "4"
    +:+ connecting_line v "0.001"
  else "".

Definition reactor_line (v : view) : string :=
  "New " +:+ dq +:+ "Reactor.TRF_" +:+ py_str (ident v) +:+ dq +:+ " phases=1 bus1=" +:+ dq
  +:+ py_str (bus2 v) +:+ ".4" +:+ dq +:+ " R=15 X=0 basefreq=60".

(** The main block up to the losses. *)
Definition transformer_head (v : view) (k : value) (n : nat) : string :=
  "New " +:+ dq +:+ "Transformer.TRF_" +:+ py_str (ident v) +:+ dq
  +:+ " phases=" +:+ py_str (phases v) +:+ " "
  +:+ "windings=" +:+ py_str (windings v) +:+ " "
  +:+ "buses=[" +:+ buses_text v +:+ "] "
  +:+ "conns=[" +:+ conns_text v +:+ "] "
  +:+ "kvs=[" +:+ py_str k +:+ "] "
  +:+ "taps=[" +:+ per_winding (tap v) n +:+ "] "
  +:+ "kvas=[" +:+ per_winding (kvas v) n +:+ "] ".

Definition losses_text (ll nll : string) : string :=
  "%loadloss=" +:+ ll +:+ " %noloadloss=" +:+ nll +:+ nl.

(** *** Numbers with three decimals *)





(** *** The length a block gives its line *)

Fixpoint until_blank (s : string) : string :=
  match s with
  | EmptyString => EmptyString
  | String c r => if is_space c || Ascii.eqb c (ascii_of_nat 10) then EmptyString
                  else String c (until_blank r)
  end.

(** The text that follows the first [key] of [block], up to the next
    blank. *)
Definition field_after (key block : string) : option string :=
  match String.index 0 key block with
  | Some i =>
      let from := (i + String.length key)%nat in
      Some (until_blank (substring from (String.length block - from) block))
  | None => None
  end.

(** The block defines a line whose length is the number zero. *)
Definition zero_length_line (block : string) : bool :=
  match field_after "length=" block with
  | Some text =>
      match parse_number text with
      | Some x => py_eq x (VInt 0)
      | None => false
      end
  | None => false
  end.

(** *** What a section writes *)

(** The target attributes of a section with, for each, the value its rule
    computes on a row. *)
Definition rule_values (namespace : string -> option (string -> result value))
    (s : section) (r : row) : list (string * result value) :=
  match s with
  | Static rules => prod_map (@id string) Ok <$> rules
  | DirectMapping rules => prod_map (@id string) (row_get r) <$> rules
  | IndirectMapping rules => prod_map (@id string) (fun m => indirect_value namespace m r) <$> rules
  | Calculated rules => prod_map (@id string) (fun m => calculated_value m r) <$> rules
  | Arquivo _ | OtherKey _ => []
  end.

Definition targets (s : section) : list string :=
  match s with
  | Static rules => rules.*1
  | DirectMapping rules => rules.*1
  | IndirectMapping rules => rules.*1
  | Calculated rules => rules.*1
  | Arquivo _ | OtherKey _ => []
  end.


(** Some section of the configuration has a rule for the target [a]. *)
Definition targeted (c : config) (a : string) : bool :=
  existsb (fun s => mem_string a (targets s)) c.




(** The attributes of the dataclass that no method reads when an entity
    is serialised. *)
Definition unread : list string :=
  ["_kvs"; "_feeder"; "_ten_lin_se"; "_suffix_bus1"; "_suffix_bus2"; "_suffix_bus3"].

(** The assignment of every pair, in order. *)
Definition store_all (t : transformer) (kvs : list (string * value)) : transformer :=
  fold_left (fun t '(k, x) => assign t ("_" +:+ k) x) kvs t.


(** The entity a construction returns, if it returns. *)
Definition built (r : result transformer) : transformer :=
  match r with
  | Ok t => t
  | Raise _ => ∅
  end.


(** A section the interpreter has a branch for. *)
Definition interpreted (s : section) : bool :=
  match s with
  | Arquivo _ | OtherKey _ => false
  | _ => true
  end.

(** ** Sample data *)

Definition f13_8 : spec_float := float_of_decimal 138 (-1).
Definition f0_38 : spec_float := float_of_decimal 38 (-2).

(** A stand-in for the module's namespace: every name that starts with
    [convert_] is a function that returns its argument. *)
Definition sample_namespace : string -> option (string -> result value) :=
  fun name => if String.prefix "convert_" name then Some (fun s => Ok (VStr s)) else None.

Definition sample_artifact_id (file_name : string) (feeder : value) : string :=
  file_name +:+ "_" +:+ py_str feeder.

Definition sample_row : row :=
  list_to_map
    [("CTMT", VStr "F1"); ("COD_ID", VStr "T1");
     ("PAC_1", VStr "B1"); ("PAC_2", VStr "B2"); ("PAC_3", VStr "0");
     ("POT_NOM", VInt 75); ("MRT", VInt 0); ("TAP", VFloat (float_of_int 1));
     ("PER_TOT", VInt 1500); ("PER_FER", VInt 300); ("DIV", VInt 10)].


Definition direct_rules : list (string * string) :=
  [("feeder", "CTMT"); ("transformer", "COD_ID");
   ("bus1", "PAC_1"); ("bus2", "PAC_2"); ("bus3", "PAC_3");
   ("kvas", "POT_NOM"); ("MRT", "MRT"); ("tap", "TAP")].

Definition static_rules : list (string * value) :=
  [("tip_trafo", VStr "MT"); ("windings", VInt 2); ("phases", VInt 3);
   ("v_pri", VFloat f13_8); ("v_sec", VFloat f0_38);
   ("bus1_nodes", VStr "1.2.3"); ("bus2_nodes", VStr "1.2.3.4");
   ("conn_p", VStr "Delta"); ("conn_s", VStr "Wye")].

Definition loadloss_tokens : list item :=
  [IStr "("; IStr "PER_TOT"; IStr "-"; IStr "PER_FER"; IStr ")"; IStr "/";
   IStr "("; IStr "POT_NOM"; IStr "*"; IStr "DIV"; IStr ")"].

Definition kvas_tokens : list item := [IStr "POT_NOM"; IStr "*"; ILit (VInt 2)].

Definition calculated_rules : list (string * list item) :=
  [] ++ ("loadloss", loadloss_tokens) :: [("kvas", kvas_tokens)].

Definition sample_prefix : config :=
  [Arquivo "Transformers"; Static static_rules; DirectMapping direct_rules].

(** Sections in the order static, direct, calculated. *)
Definition sample_config : config := sample_prefix ++ [Calculated calculated_rules].



Definition document (c : config) : gmap string (gmap string (gmap string config)) :=
  {[ "elements" := {[ "Transformer" := {[ "UNTRMT" := c ]} ]} ]}.

(** An MRT transformer on two buses. *)
Definition mrt_entity : transformer :=
  store_all new_transformer
    [("feeder", VStr "F1"); ("transformer", VStr "T1");
     ("bus1", VStr "B1"); ("bus2", VStr "B2"); ("bus3", VStr "0");
     ("bus1_nodes", VStr "1"); ("bus2_nodes", VStr "1.4");
     ("conn_p", VStr "Wye"); ("conn_s", VStr "Wye");
     ("windings", VInt 2); ("phases", VInt 1); ("kvas", VInt 75);
     ("tap", VFloat (float_of_int 1)); ("MRT", VInt 1); ("tip_trafo", VStr "MT");
     ("v_pri", VFloat f13_8); ("v_sec", VFloat f0_38);
     ("loadloss", VFloat (float_of_decimal 16 (-1)));
     ("noloadloss", VFloat (float_of_decimal 4 (-1)))].

Definition mrt_view : view :=
  View (VStr "T1") (VStr "B1") (VStr "B2") (VStr "0") (VStr "1") (VStr "1.4") (VStr "")
    (VStr "Wye") (VStr "Wye") (VStr "") (VInt 1) (VInt 2) (VInt 1) (VInt 75)
    (VFloat (float_of_int 1)) (VFloat (float_of_decimal 16 (-1)))
    (VFloat (float_of_decimal 4 (-1))).

(** A three-phase transformer, both windings wye with neutral. *)
Definition wye_wye_entity : transformer :=
  store_all new_transformer
    [("transformer", VStr "T2"); ("tip_trafo", VStr "T");
     ("lig_fas_p", VStr "ABCN"); ("lig_fas_s", VStr "ABCN"); ("lig_fas_t", VStr "0");
     ("v_pri", VFloat f13_8); ("v_sec", VFloat f0_38)].

(** The record of another transformer. *)
Definition second_row : row := <["COD_ID" := VStr "T2"]> sample_row.

Definition sample_rows : list row := [sample_row; second_row].

Definition sample_entities : list transformer :=
  (fun r => built (_create_transformer_from_row sample_namespace sample_config r))
    <$> sample_rows.

(** A configuration that names no file. *)
Definition nameless_config : config := [Static static_rules; DirectMapping direct_rules].


(** What a serialisation reads in an entity just constructed. *)
Definition default_view : view :=
  View (VStr "") (VStr "") (VStr "") (VStr "") (VStr "") (VStr "") (VStr "")
    (VStr "") (VStr "") (VStr "") (VInt 0) (VStr "") (VInt 0) (VInt 0)
    (VFloat (S754_zero false)) (VFloat (S754_zero false)) (VFloat (S754_zero false)).

(** A transformer whose secondary is the open delta [AC]. *)
Definition open_delta_entity : transformer :=
  store_all new_transformer
    [("tip_trafo", VStr "T"); ("lig_fas_p", VStr "AB"); ("lig_fas_s", VStr "AC");
     ("lig_fas_t", VStr "XX"); ("v_pri", VFloat f13_8); ("v_sec", VFloat f0_38)].

Definition open_delta_voltages : voltages :=
  Voltages (VStr "T") (VStr "AB") (VStr "AC") (VStr "XX") (VFloat f13_8) (VFloat f0_38).

(** The MRT transformer with its load loss given as text. *)
Definition text_loss_entity : transformer := assign mrt_entity "_loadloss" (VStr "1.6").

Definition text_loss_view : view :=
  View (VStr "T1") (VStr "B1") (VStr "B2") (VStr "0") (VStr "1") (VStr "1.4") (VStr "")
    (VStr "Wye") (VStr "Wye") (VStr "") (VInt 1) (VInt 2) (VInt 1) (VInt 75)
    (VFloat (float_of_int 1)) (VStr "1.6") (VFloat (float_of_decimal 4 (-1))).

(** The MRT transformer with no winding. *)
Definition no_winding_entity : transformer := assign mrt_entity "_windings" (VInt 0).

Definition no_winding_view : view :=
  View (VStr "T1") (VStr "B1") (VStr "B2") (VStr "0") (VStr "1") (VStr "1.4") (VStr "")
    (VStr "Wye") (VStr "Wye") (VStr "") (VInt 1) (VInt 0) (VInt 1) (VInt 75)
    (VFloat (float_of_int 1)) (VFloat (float_of_decimal 16 (-1)))
    (VFloat (float_of_decimal 4 (-1))).

(** The descriptions of two tables, as the document gives them. *)
Definition sample_entries : list (string * Core.json) :=
  [("CTMT",
    Core.JObject
      [("columns", Core.JArray [Core.JString "COD_ID"; Core.JString "TEN_NOM"]);
       ("type", Core.JObject [("COD_ID", Core.JString "category")]);
       ("ignore_geometry", Core.JBool false)]);
   ("UNTRMT",
    Core.JObject
      [("columns", Core.JArray [Core.JString "COD_ID"; Core.JString "PAC_1"]);
       ("type", Core.JObject [("PAC_1", Core.JString "category")]);
       ("ignore_geometry", Core.JBool true)])].

Definition sample_data : Core.json :=
  Core.JObject
    [("configuration", Core.JObject [("tables", Core.JObject sample_entries)]);
     ("elements", Core.JObject [])].

Definition sample_tables : list (string * Core.Table) :=
  [("CTMT",
    Core.mkTable "CTMT" (Core.JArray [Core.JString "COD_ID"; Core.JString "TEN_NOM"])
      (Core.JObject [("COD_ID", Core.JString "category")]) (Core.JBool false));
   ("UNTRMT",
    Core.mkTable "UNTRMT" (Core.JArray [Core.JString "COD_ID"; Core.JString "PAC_1"])
      (Core.JObject [("PAC_1", Core.JString "category")]) (Core.JBool true))].

(** Stand-ins for geopandas: a frame is the text of where it was read
    from, the conversion keeps it, its size is its length, and the clock
    advances by one second at each reading. *)
Definition sample_read_file (file_name : string) (table : Core.Table) : result string :=
  Ok (file_name +:+ ":" +:+ Core.name table).

Definition sample_astype (frame : string) (column_types : Core.json) : result string :=
  Ok frame.

Definition sample_memory_usage_sum (frame : string) : value :=
  VInt (Z.of_nat (String.length frame)).

Definition sample_clock (n : nat) : spec_float := float_of_int (Z.of_nat n).

Definition sample_statistics : list (string * Core.statistics string) :=
  match
    Core.create_geodataframes string sample_read_file sample_astype sample_memory_usage_sum
      sample_clock sample_tables "base.gdb" 2
  with
  | Ok stats => stats
  | Raise _ => []
  end.

(** A closed equation between entities is settled by deciding it, which
    keeps the maps out of the proof. *)
Ltac decide_by_computing :=
  match goal with
  | |- ?P => apply (bool_decide_eq_true_1 P); vm_compute; reflexivity
  end.

(** ** The state of an entity under assignment *)

(** A [setattr] that returns has assigned the attribute. *)
Lemma setattr_Ok (t : transformer) name v t' :
  setattr t name v = Ok t' → t' = assign t name v.
Proof.
  unfold setattr.
  destruct (String.eqb name "__class__"); [done|].
  destruct (String.eqb name "__dict__"); [done|].
  destruct (String.eqb name "__weakref__"); [done|]. by intros [= <-].
Qed.


Lemma setattr_special (t : transformer) name v :
  special_attribute name = true → ∃ e, setattr t name v = Raise e.
Proof.
  unfold special_attribute, setattr.
  destruct (String.eqb name "__class__"); [by eexists|].
  destruct (String.eqb name "__dict__"); [by eexists|].
  destruct (String.eqb name "__weakref__"); [by eexists|done].
Qed.

Lemma store_all_snoc (t : transformer) kvs k x :
  store_all t (kvs ++ [(k, x)]) = assign (store_all t kvs) ("_" +:+ k) x.
Proof. unfold store_all. by rewrite fold_left_app. Qed.

Lemma store_all_app (t : transformer) kvs1 kvs2 :
  store_all t (kvs1 ++ kvs2) = store_all (store_all t kvs1) kvs2.
Proof. unfold store_all. by rewrite fold_left_app. Qed.

Lemma store_all_cons (t : transformer) k x kvs :
  store_all t ((k, x) :: kvs) = store_all (assign t ("_" +:+ k) x) kvs.
Proof. reflexivity. Qed.

(** An attribute that no pair names keeps its value. *)
Lemma store_all_frame (t : transformer) kvs name :
  (∀ k, k ∈ kvs.*1 → "_" +:+ k ≠ name) →
  store_all t kvs !! name = t !! name.
Proof.
  revert t. induction kvs as [|[k x] kvs IH]; intros t Hfresh; [done|].
  rewrite store_all_cons, IH.
  - unfold assign. apply lookup_insert_ne. apply Hfresh. simpl. left.
  - intros k' Hk'. apply Hfresh. simpl. by right.
Qed.

Lemma underscore_inj (a b : string) : "_" +:+ a = "_" +:+ b → a = b.
Proof. intros H. by injection H. Qed.



(** ** The interpreter, section by section *)

Section InterpreterFacts.

Context (namespace : string -> option (string -> result value)).

Local Arguments calculated_value : simpl never.
Local Arguments indirect_value : simpl never.
Local Arguments row_get : simpl never.


Lemma rule_values_targets s r : (rule_values namespace s r).*1 = targets s.
Proof.
  destruct s; cbn [rule_values targets]; try done;
    rewrite <- list_fmap_compose; apply list_fmap_ext; by intros ? [??].
Qed.

(** A section that ends well has computed a value for each of its rules
    and stored them in order. *)
Definition stores (t : transformer) (vals : list (string * result value)) (t' : transformer) : Prop :=
  ∃ kvs, vals = prod_map id Ok <$> kvs ∧ t' = store_all t kvs.

Lemma stores_cons t k x vals t' :
  stores (assign t ("_" +:+ k) x) vals t' → stores t ((k, Ok x) :: vals) t'.
Proof. intros (kvs & -> & ->). by exists ((k, x) :: kvs). Qed.

Lemma _process_static_stores t value t' :
  _process_static t value = Ok t' → t' = store_all t value.
Proof.
  revert t. induction value as [|[k x] value IH]; intros t; cbn.
  - by intros [= <-].
  - destruct (setattr t ("_" +:+ k) x) as [t1|] eqn:E; cbn; [|done].
    apply setattr_Ok in E as ->. intros H. by rewrite (IH _ H).
Qed.

Lemma _process_direct_mapping_stores t value r t' :
  _process_direct_mapping t value r = Ok t' →
  stores t (prod_map id (row_get r) <$> value) t'.
Proof.
  revert t. induction value as [|[k column] value IH]; intros t; cbn.
  - intros [= <-]. by exists [].
  - destruct (row_get r column) as [x|]; cbn; [|done].
    destruct (setattr t ("_" +:+ k) x) as [t1|] eqn:E; cbn; [|done].
    apply setattr_Ok in E as ->. intros H. by apply stores_cons, IH.
Qed.

Lemma _process_indirect_mapping_stores t value r t' :
  _process_indirect_mapping namespace t value r = Ok t' →
  stores t (prod_map id (fun m => indirect_value namespace m r) <$> value) t'.
Proof.
  revert t. induction value as [|[k m] value IH]; intros t; cbn.
  - intros [= <-]. by exists [].
  - destruct (indirect_value namespace m r) as [x|]; cbn; [|done].
    destruct (setattr t ("_" +:+ k) x) as [t1|] eqn:E; cbn; [|done].
    apply setattr_Ok in E as ->. intros H. by apply stores_cons, IH.
Qed.

Lemma _process_calculated_stores t value r t' :
  _process_calculated t value r = Ok t' →
  stores t (prod_map id (fun m => calculated_value m r) <$> value) t'.
Proof.
  revert t. induction value as [|[k m] value IH]; intros t; cbn.
  - intros [= <-]. by exists [].
  - destruct (calculated_value m r) as [x|]; cbn; [|done].
    destruct (setattr t ("_" +:+ k) x) as [t1|] eqn:E; cbn; [|done].
    apply setattr_Ok in E as ->. intros H. by apply stores_cons, IH.
Qed.

Lemma process_section_stores t s r t' :
  process_section namespace t s r = Ok t' →
  stores t (rule_values namespace s r) t'.
Proof.
  destruct s; cbn [process_section rule_values].
  - intros H. apply _process_static_stores in H as ->. by exists rules.
  - apply _process_direct_mapping_stores.
  - apply _process_indirect_mapping_stores.
  - apply _process_calculated_stores.
  - intros [= <-]. by exists [].
  - intros [= <-]. by exists [].
Qed.

Lemma stores_targets s r (kvs : list (string * value)) :
  rule_values namespace s r = prod_map id Ok <$> kvs → kvs.*1 = targets s.
Proof.
  intros H. rewrite <- (rule_values_targets s r), H, <- list_fmap_compose.
  apply list_fmap_ext. by intros ? [??].
Qed.

(** A section leaves alone every attribute that none of its rules
    targets. *)
Lemma process_section_frame t s r t' name :
  process_section namespace t s r = Ok t' →
  (∀ k, k ∈ targets s → "_" +:+ k ≠ name) →
  t' !! name = t !! name.
Proof.
  intros (kvs & Hvals & ->)%process_section_stores Hfresh.
  apply store_all_frame. intros k Hk. apply Hfresh.
  by rewrite <- (stores_targets s r kvs Hvals).
Qed.



Lemma process_sections_frame t c r t' name :
  process_sections namespace t c r = Ok t' →
  (∀ s k, s ∈ c → k ∈ targets s → "_" +:+ k ≠ name) →
  t' !! name = t !! name.
Proof.
  revert t. induction c as [|s c IH]; intros t; cbn.
  - by intros [= <-].
  - destruct (process_section namespace t s r) as [t1|] eqn:E; cbn; [|done].
    intros H Hfresh. rewrite (IH _ H).
    + apply (process_section_frame _ _ _ _ _ E). intros k. apply Hfresh. left.
    + intros s' k Hs'. apply Hfresh. by right.
Qed.

(** The interpreter writes attributes whose name starts with an
    underscore only: an entity it builds has no attribute [kvs] that
    would hide the method. *)
Lemma _create_transformer_from_row_kvs c r t :
  _create_transformer_from_row namespace c r = Ok t → t !! "kvs" = None.
Proof.
  intros H. unfold _create_transformer_from_row in H.
  rewrite (process_sections_frame _ _ _ _ "kvs" H); [done|].
  intros _ k _ _ [=].
Qed.

End InterpreterFacts.

(** ** Precedence of the sections *)

Section Precedence.

Context (namespace : string -> option (string -> result value)).


End Precedence.



(** ** The batch driver *)

Section BatchFacts.

Context (namespace : string -> option (string -> result value)).
Context (artifact_id : string -> value -> string).

Local Arguments _create_transformer_from_row : simpl never.

Lemma build_rows_spec c rows ts :
  build_rows namespace c rows = Ok ts ↔
  Forall2 (fun r t => _create_transformer_from_row namespace c r = Ok t) rows ts.
Proof.
  revert ts. induction rows as [|r rows IH]; intros ts; cbn.
  - split; [intros [= <-]; constructor | by intros ->%Forall2_nil_inv_l].
  - destruct (_create_transformer_from_row namespace c r) as [t|e] eqn:E; cbn.
    + destruct (build_rows namespace c rows) as [ts'|e] eqn:E'; cbn; split.
      * intros [= <-]. constructor; [done|]. by apply IH.
      * intros (t' & ts'' & Ht & Hts & ->)%Forall2_cons_inv_l.
        apply IH in Hts. congruence.
      * done.
      * intros (t' & ts'' & Ht & Hts & ->)%Forall2_cons_inv_l.
        apply IH in Hts. congruence.
    + split; [done|]. intros (t' & ts'' & Ht & _)%Forall2_cons_inv_l. congruence.
Qed.



(** An exception of the loop leaves the driver as it is: nothing is
    returned and the writer is not reached. *)
Lemma batch_raises json c rows e :
  transformer_config_of json = Ok c →
  build_rows namespace c rows = Raise e →
  create_transformer_from_json namespace artifact_id json rows = Raise e.
Proof. intros Hc Hrows. unfold create_transformer_from_json. by rewrite Hc; cbn; rewrite Hrows. Qed.

Lemma serialize_all_length ts texts ts' :
  serialize_all ts = (Ok texts, ts') → length texts = length ts ∧ length ts' = length ts.
Proof.
  revert texts ts'. induction ts as [|t ts IH]; intros texts ts'; cbn.
  - by intros [= <- <-].
  - destruct (full_string t) as [[text|e] t1]; [|done].
    destruct (serialize_all ts) as [[texts1|e] ts1]; cbn; [|done].
    intros [= <- <-]. cbn. destruct (IH _ _ eq_refl) as [-> ->]. done.
Qed.

(** Each text written is the serialisation of the entity built from the
    row of the same rank, and the entity returned is that entity as its
    serialisation leaves it. *)
Lemma serialize_all_spec ts texts ts' :
  serialize_all ts = (Ok texts, ts') →
  Forall2 (fun t out => full_string t = (Ok out.1, out.2)) ts (zip texts ts').
Proof.
  revert texts ts'. induction ts as [|t ts IH]; intros texts ts'; cbn.
  - intros [= <- <-]. constructor.
  - destruct (full_string t) as [[text|e] t1] eqn:E; [|done].
    destruct (serialize_all ts) as [[texts1|e] ts1]; cbn; [|done].
    intros [= <- <-]. cbn. constructor; [done|]. by apply IH.
Qed.

(** The batch on a frame whose rows all build and serialise: one entity
    per row in the order of the rows, all blocks written to the
    destination named by the feeder of the last entity, and the pair of
    the entities and the artifact identifier returned. *)
Lemma batch_returns json c name rows ts final feeder texts ts' :
  transformer_config_of json = Ok c →
  arquivo c = Ok name →
  build_rows namespace c rows = Ok ts →
  last ts = Some final →
  final !! "_feeder" = Some feeder →
  serialize_all ts = (Ok texts, ts') →
  create_transformer_from_json namespace artifact_id json rows
  = Ok (Batch ts' (artifact_id name feeder) (OutputFile feeder name texts))
  ∧ length ts' = length rows
  ∧ length texts = length rows
  ∧ Forall2 (fun r t => _create_transformer_from_row namespace c r = Ok t) rows ts
  ∧ Forall2 (fun t out => full_string t = (Ok out.1, out.2)) ts (zip texts ts').
Proof.
  intros Hc Hname Hrows Hlast Hfeeder Hout.
  pose proof (proj1 (build_rows_spec _ _ _) Hrows) as Hall.
  destruct (serialize_all_length _ _ _ Hout) as [Htexts Hts'].
  rewrite Htexts, Hts', <- (Forall2_length _ _ _ Hall).
  repeat split; [|done|by apply serialize_all_spec].
  unfold create_transformer_from_json, create_output_file, getattr.
  rewrite Hc; cbn. rewrite Hrows; cbn. rewrite Hname; cbn.
  rewrite Hlast, Hfeeder; cbn. by rewrite Hout.
Qed.

(** C10: on the empty row set the batch entry never returns a pair of an
    empty entity list and an artifact identifier.  The loop binds no
    entity, so with the configuration found and its file name present,
    reading the feeder of the last entity for the call of the output
    writer raises the unbound-variable error: the entry needs a row set
    that is not empty. *)
Theorem empty_frame_raises (json : gmap string (gmap string (gmap string config))) :
  (∀ b, create_transformer_from_json namespace artifact_id json [] ≠ Ok b)
  ∧ (∀ c name,
       transformer_config_of json = Ok c → arquivo c = Ok name →
       create_transformer_from_json namespace artifact_id json []
       = Raise (UnboundLocalError "transformer_")).
Proof.
  unfold create_transformer_from_json. split.
  - intros b. destruct (transformer_config_of json) as [c|]; cbn; [|done].
    by destruct (arquivo c).
  - intros c name -> Hname. cbn. by rewrite Hname.
Qed.

End BatchFacts.

Lemma empty_frame_raises_witness :
  create_transformer_from_json sample_namespace sample_artifact_id (document sample_config) []
  = Raise (UnboundLocalError "transformer_").
Proof.
  apply (proj2 (empty_frame_raises sample_namespace sample_artifact_id (document sample_config))
           sample_config "Transformers"); vm_compute; reflexivity.
Defined.

(** ** Failures of a rule *)

Section Failures.

Context (namespace : string -> option (string -> result value)).
Context (artifact_id : string -> value -> string).

Local Arguments calculated_value : simpl never.
Local Arguments indirect_value : simpl never.







End Failures.





(** C8 at the empty row set: the spec has the batch return as many
    entities as rows, none here, with an artifact identifier; the code
    raises, while a frame of one row gives a batch of one entity written
    under the feeder of that entity. *)
Lemma empty_frame_gives_no_batch :
  create_transformer_from_json sample_namespace sample_artifact_id (document sample_config) []
  = Raise (UnboundLocalError "transformer_")
  ∧ (fun b => (length (transformers b), file_name b, destination (written b)))
      <$> create_transformer_from_json sample_namespace sample_artifact_id
            (document sample_config) [sample_row]
    = Ok (1%nat, "Transformers_F1", VStr "F1").
Proof. split; vm_compute; reflexivity. Qed.

(** ** Texts *)

Section Texts.

Local Arguments String.append : simpl nomatch.

Lemma string_app_assoc (a b c : string) : (a +:+ b) +:+ c = a +:+ (b +:+ c).
Proof. induction a as [|x a IH]; cbn; [done | by rewrite IH]. Qed.

Lemma string_app_nil_r (a : string) : a +:+ "" = a.
Proof. induction a as [|x a IH]; cbn; [done | by rewrite IH]. Qed.

Lemma string_app_nil_l (a : string) : "" +:+ a = a.
Proof. reflexivity. Qed.

Lemma string_app_length (a b : string) :
  String.length (a +:+ b) = (String.length a + String.length b)%nat.
Proof. induction a as [|x a IH]; cbn; [done | by rewrite IH]. Qed.









End Texts.

(** ** The formatter *)

Section Formatter.

Local Arguments String.append : simpl never.

(** Every attribute a view holds is an attribute of the entity. *)
Lemma view_of_lookups t v :
  view_of t = Some v →
  t !! "_transformer" = Some (ident v) ∧ t !! "_bus1" = Some (bus1 v)
  ∧ t !! "_bus2" = Some (bus2 v) ∧ t !! "_bus3" = Some (bus3 v)
  ∧ t !! "_bus1_nodes" = Some (nodes1 v) ∧ t !! "_bus2_nodes" = Some (nodes2 v)
  ∧ t !! "_bus3_nodes" = Some (nodes3 v)
  ∧ t !! "_conn_p" = Some (conn_p v) ∧ t !! "_conn_s" = Some (conn_s v)
  ∧ t !! "_conn_t" = Some (conn_t v)
  ∧ t !! "_MRT" = Some (mrt v) ∧ t !! "_windings" = Some (windings v)
  ∧ t !! "_phases" = Some (phases v) ∧ t !! "_kvas" = Some (kvas v)
  ∧ t !! "_tap" = Some (tap v)
  ∧ t !! "_loadloss" = Some (loadloss v) ∧ t !! "_noloadloss" = Some (noloadloss v).
Proof. unfold view_of. intros H. by simplify_option_eq. Qed.

Lemma repeated_per_winding t name x n :
  t !! name = Some x → repeated t name n = Ok (per_winding x n).
Proof. intros H. unfold repeated, getattr, per_winding. rewrite H. by destruct n. Qed.

Lemma pattern_MRT_view t v :
  view_of t = Some v → mrt_flag v = true → pattern_MRT t = Ok (mrt_block v).
Proof.
  intros (Hid & Hb1 & _ & _ & Hn1 & _)%view_of_lookups Hflag.
  unfold pattern_MRT, getattr, mrt_block. rewrite Hid, Hb1, Hn1, Hflag. cbn.
  unfold linecode_MRT, linecode_text, connecting_line, bus_entry, mrt_node.
  by rewrite !string_app_assoc.
Qed.

Lemma pattern_reactor_view t v :
  view_of t = Some v → pattern_reactor t = Ok (reactor_line v).
Proof.
  intros (Hid & _ & Hb2 & _)%view_of_lookups.
  unfold pattern_reactor, getattr. by rewrite Hid, Hb2.
Qed.

(** The six texts of [adapting_string_variables], read off the view. *)
Lemma adapting_string_variables_view t v k n :
  view_of t = Some v →
  t !! "kvs" = None →
  kvs t = Ok k →
  py_range (windings v) = Ok n →
  adapting_string_variables t
  = Ok (k, buses_text v, conns_text v, per_winding (kvas v) n, per_winding (tap v) n,
        mrt_block v).
Proof.
  intros Hv Hfresh Hk Hn.
  pose proof (pattern_MRT_view t v Hv) as HMRT.
  destruct (view_of_lookups t v Hv) as
    (Hid & Hb1 & Hb2 & Hb3 & Hn1 & Hn2 & Hn3 & Hcp & Hcs & Hct & Hmrt & Hw & _ & Hkvas & Htap & _).
  unfold adapting_string_variables, getattr, call_kvs.
  rewrite Hmrt, Hb3, Hb1, Hid, Hn1, Hb2, Hn2, Hn3, Hcp, Hcs, Hct, Hw, Hfresh, Hk.
  cbn. rewrite Hn. cbn.
  rewrite (repeated_per_winding _ _ _ _ Hkvas), (repeated_per_winding _ _ _ _ Htap). cbn.
  unfold buses_text, conns_text, bus_entries, conn_entries, mrt_block, mrt_node in *.
  unfold mrt_flag, third_bus in *.
  destruct (py_eq (mrt v) (VInt 1)); destruct (py_eq (bus3 v) (VStr "0")); cbn;
    rewrite ?HMRT by done; cbn;
    by rewrite ?string_app_assoc, ?string_app_nil_r.
Qed.

Lemma store_strings_lookups t k buses conns kvas taps :
  let t' := store_strings t k buses conns kvas taps in
  t' !! "kvs" = Some k ∧ t' !! "buses" = Some (VStr buses) ∧ t' !! "conns" = Some (VStr conns)
  ∧ t' !! "_kvas" = Some (VStr kvas) ∧ t' !! "taps" = Some (VStr taps).
Proof. unfold store_strings, assign. cbn. by simplify_map_eq. Qed.

(** The assignment of [full_string] leaves alone every attribute but the
    five it writes. *)
Lemma store_strings_frame t k buses conns kvas taps name :
  mem_string name ["kvs"; "buses"; "conns"; "_kvas"; "taps"] = false →
  store_strings t k buses conns kvas taps !! name = t !! name.
Proof.
  intros Hname. unfold store_strings, assign.
  rewrite !lookup_insert_ne; [done|..]; intros <-; by vm_compute in Hname.
Qed.

(** The text of [full_string] and the state it leaves, for an entity
    that has the attributes of a view [v], no attribute [kvs] yet, and
    whose voltages, winding count and losses can be formatted. *)
Lemma full_string_view t v k n ll nll :
  view_of t = Some v →
  t !! "kvs" = None →
  kvs t = Ok k →
  py_range (windings v) = Ok n →
  py_format_3f (loadloss v) = Ok ll →
  py_format_3f (noloadloss v) = Ok nll →
  full_string t
  = (Ok (transformer_head v k n +:+ losses_text ll nll +:+ mrt_block v +:+ reactor_line v),
     store_strings t k (buses_text v) (conns_text v)
       (per_winding (kvas v) n) (per_winding (tap v) n)).
Proof.
  intros Hv Hfresh Hk Hn Hll Hnll. unfold full_string.
  rewrite (adapting_string_variables_view t v k n) by done.
  f_equal.
  destruct (store_strings_lookups t k (buses_text v) (conns_text v)
              (per_winding (kvas v) n) (per_winding (tap v) n))
    as (Hkvs' & Hbuses & Hconns & Hkvas' & Htaps).
  destruct (view_of_lookups t v Hv) as
    (Hid & _ & Hb2 & _ & _ & _ & _ & _ & _ & _ & _ & Hw & Hph & _ & _ & Hl & Hnl).
  unfold render, pattern_reactor, getattr.
  rewrite Hkvs', Hbuses, Hconns, Hkvas', Htaps.
  rewrite !store_strings_frame by reflexivity.
  rewrite Hid, Hb2, Hw, Hph, Hl, Hnl. cbn [mbind result_bind py_str].
  rewrite Hll, Hnll. cbn [mbind result_bind py_str].
  unfold transformer_head, losses_text, reactor_line.
  by rewrite !string_app_assoc.
Qed.

End Formatter.

(** ** The serialised block *)

Section Block.

Local Arguments String.append : simpl never.


(** C6, as the code has it.  With the MRT flag set, the entry of bus 1
    in the list of buses names the synthetic node [MRT_<bus1>TRF_<id>],
    and the block holds, between the main block and the reactor line,
    four line codes (one to four phases, resistance 15000, reactance 0,
    per km, no rated current) and one line of 0.001 km from the real bus
    1 to the synthetic node; without the flag the entry names bus 1 and
    the block holds none of them.  The lists of buses and of connections
    have three entries when the third bus is not ["0"], two otherwise. *)
Theorem buses_and_mrt_block (t : transformer) (v : view) (k : value) (n : nat)
    (ll nll : string) :
  view_of t = Some v →
  t !! "kvs" = None →
  kvs t = Ok k →
  py_range (windings v) = Ok n →
  py_format_3f (loadloss v) = Ok ll →
  py_format_3f (noloadloss v) = Ok nll →
  (full_string t).1
  = Ok (transformer_head v k n +:+ losses_text ll nll +:+ mrt_block v +:+ reactor_line v)
  ∧ (full_string t).2 !! "buses"
    = Some (VStr (join " " (bus_entries v) +:+ (if mrt_flag v then " " else "")))
  ∧ (full_string t).2 !! "conns" = Some (VStr (join " " (conn_entries v)))
  ∧ length (bus_entries v) = (if third_bus v then 3 else 2)%nat
  ∧ length (conn_entries v) = (if third_bus v then 3 else 2)%nat
  ∧ head (bus_entries v)
    = Some (bus_entry (if mrt_flag v then "MRT_" +:+ py_str (bus1 v) +:+ "TRF_" +:+ py_str (ident v)
                       else py_str (bus1 v))
              (py_str (nodes1 v)))
  ∧ mrt_block v
    = (if mrt_flag v then
         linecode_text v "1" +:+ linecode_text v "2" +:+ linecode_text v "3"
         +:+ linecode_text v "4" +:+ connecting_line v "0.001"
       else "").
Proof.
  intros Hv Hfresh Hk Hn Hll Hnll.
  rewrite (full_string_view t v k n ll nll) by done. cbn [fst snd].
  destruct (store_strings_lookups t k (buses_text v) (conns_text v)
              (per_winding (kvas v) n) (per_winding (tap v) n))
    as (_ & Hbuses & Hconns & _).
  repeat split; try done.
  - unfold bus_entries. by destruct (third_bus v).
  - unfold conn_entries. by destruct (third_bus v).
Qed.

(** What [full_string] does to the attributes: [_kvas] holds the text of
    the ratings afterwards, not the rating. *)
Lemma full_string_overwrites_kvas (t : transformer) (v : view) (k : value) (n : nat)
    (ll nll : string) :
  view_of t = Some v →
  t !! "kvs" = None →
  kvs t = Ok k →
  py_range (windings v) = Ok n →
  py_format_3f (loadloss v) = Ok ll →
  py_format_3f (noloadloss v) = Ok nll →
  (full_string t).2 !! "_kvas" = Some (VStr (per_winding (kvas v) n))
  ∧ (full_string t).2 !! "kvs" = Some k.
Proof.
  intros Hv Hfresh Hk Hn Hll Hnll.
  rewrite (full_string_view t v k n ll nll) by done. cbn [snd].
  by destruct (store_strings_lookups t k (buses_text v) (conns_text v)
                 (per_winding (kvas v) n) (per_winding (tap v) n))
    as (? & _ & _ & ? & _).
Qed.

(** The attributes [full_string] does not assign keep their value. *)
Lemma full_string_frame (t : transformer) (name : string) :
  mem_string name ["kvs"; "buses"; "conns"; "_kvas"; "taps"] = false →
  (full_string t).2 !! name = t !! name.
Proof.
  intros Hname. unfold full_string.
  destruct (adapting_string_variables t) as [[[[[[k buses] conns] kvas] taps] MRT]|e];
    cbn [snd]; [|done].
  by apply store_strings_frame.
Qed.

(** Once an attribute [kvs] hides the method, the texts cannot be
    adapted any more. *)
Lemma hidden_kvs_raises (t : transformer) (x : value) :
  t !! "kvs" = Some x → ∃ e, adapting_string_variables t = Raise e.
Proof.
  intros Hx. unfold adapting_string_variables, call_kvs. rewrite Hx.
  repeat (match goal with
          | |- ∃ e, mbind _ ?r = Raise e => destruct r as [?|?]; cbn [mbind result_bind]
          | |- ∃ e, Raise _ = Raise e => by eexists
          | |- ∃ e, (let '(_, _) := ?p in _) = Raise e => destruct p
          end).
Qed.

(** A second serialisation of the same entity raises. *)
Lemma full_string_twice_raises (t : transformer) (text : string) :
  (full_string t).1 = Ok text → ∃ e, (full_string (full_string t).2).1 = Raise e.
Proof.
  unfold full_string at 1 3.
  destruct (adapting_string_variables t) as [[[[[[k buses] conns] kvas] taps] MRT]|e];
    cbn [fst snd]; [|done].
  intros _.
  destruct (hidden_kvs_raises (store_strings t k buses conns kvas taps) k) as [e He].
  - by destruct (store_strings_lookups t k buses conns kvas taps) as [? _].
  - exists e. unfold full_string. by rewrite He.
Qed.

End Block.


Lemma buses_and_mrt_block_witness :
  (full_string mrt_entity).2 !! "buses"
  = Some (VStr (join " " (bus_entries mrt_view) +:+ (if mrt_flag mrt_view then " " else "")))
  ∧ (full_string mrt_entity).2 !! "conns" = Some (VStr (join " " (conn_entries mrt_view))).
Proof.
  pose proof (buses_and_mrt_block mrt_entity mrt_view (VStr "13.8 0.38") 2 "1.600" "0.400") as H.
  destruct H as (_ & Hbuses & Hconns & _); [vm_compute; reflexivity..|].
  exact (conj Hbuses Hconns).
Defined.

(** C6, as the spec words it, fails on the length of the connecting
    line: the block of an MRT transformer gives the line 0.001 km, which
    with the line code of 15000 ohm per km makes its 15 ohm; the number
    is not zero. *)
Lemma connecting_line_is_not_zero_length :
  getattr mrt_entity "_MRT" = Ok (VInt 1)
  ∧ ∃ block,
      pattern_MRT mrt_entity = Ok block
      ∧ field_after "length=" block = Some "0.001"
      ∧ parse_number "0.001" = Some (VFloat (float_of_decimal 1 (-3)))
      ∧ zero_length_line block = false.
Proof.
  split; [vm_compute; reflexivity|].
  exists (mrt_block mrt_view). repeat split; vm_compute; reflexivity.
Qed.

(** C4 on an entity of two windings rated 75 kVA: the first serialisation
    returns its text and replaces the rating held in [_kvas] by the text
    of the ratings; the second serialisation of the same entity returns
    no text, because the first one has hidden the method [kvs] behind an
    attribute. *)
Lemma serialisation_changes_the_entity :
  mrt_entity !! "_kvas" = Some (VInt 75)
  ∧ is_ok (full_string mrt_entity).1 = true
  ∧ (full_string mrt_entity).2 !! "_kvas" = Some (VStr "75 75")
  ∧ (full_string (full_string mrt_entity).2).1
    = Raise (TypeError "'str' object is not callable").
Proof. repeat split; vm_compute; reflexivity. Qed.

(** ** Voltages *)

Section Voltages.

Lemma voltages_of_lookups t u :
  voltages_of t = Some u →
  t !! "_tip_trafo" = Some (tip_trafo u)
  ∧ t !! "_lig_fas_p" = Some (lig_fas_p u) ∧ t !! "_lig_fas_s" = Some (lig_fas_s u)
  ∧ t !! "_lig_fas_t" = Some (lig_fas_t u)
  ∧ t !! "_v_pri" = Some (v_pri u) ∧ t !! "_v_sec" = Some (v_sec u).
Proof. unfold voltages_of. intros H. by simplify_option_eq. Qed.

(** The priority table of [kvs], row by row. *)
Lemma kvs_table (t : transformer) (u : voltages) :
  voltages_of t = Some u →
  kvs t =
    if py_eq (tip_trafo u) (VStr "MT") then
      Ok (VStr (py_str (v_pri u) +:+ " " +:+ py_str (v_sec u)))
    else if py_in (lig_fas_t u) (strs ["BN"; "CN"; "AN"]) || py_eq (lig_fas_s u) (VStr "ABN") then
      primary ← voltage_enroll (lig_fas_p u) (v_pri u);
      half ← py_truediv (v_sec u) (VInt 2);
      Ok (VStr (py_str primary +:+ " " +:+ py_str half +:+ " " +:+ py_str half))
    else if py_eq (lig_fas_t u) (VStr "XX")
            && py_in (lig_fas_s u) (strs ["AN"; "BN"; "CN"; "AB"; "BC"; "CA"; "AC"; "ABC"]) then
      primary ← voltage_enroll (lig_fas_p u) (v_pri u);
      secondary ← voltage_enroll_sec (lig_fas_s u) (v_sec u);
      Ok (VStr (py_str primary +:+ " " +:+ py_str secondary))
    else if py_eq (lig_fas_t u) (VStr "0") && py_eq (lig_fas_s u) (VStr "ABCN") then
      primary ← voltage_enroll (lig_fas_p u) (v_pri u);
      py_add primary (VStr (py_str (v_sec u)))
    else Ok (VStr "").
Proof.
  intros (Htip & Hp & Hs & Ht & Hvp & Hvs)%voltages_of_lookups.
  unfold kvs, getattr. rewrite Htip, Ht, Hs, Hp, Hvp, Hvs. cbn [mbind result_bind].
  destruct (py_eq (tip_trafo u) (VStr "MT")); [done|].
  destruct (py_in (lig_fas_t u) (strs ["BN"; "CN"; "AN"])); cbn [mbind result_bind orb].
  - destruct (voltage_enroll (lig_fas_p u) (v_pri u)); cbn [mbind result_bind]; [|done].
    by destruct (py_truediv (v_sec u) (VInt 2)).
  - destruct (py_eq (lig_fas_s u) (VStr "ABN")); [|done].
    destruct (voltage_enroll (lig_fas_p u) (v_pri u)); cbn [mbind result_bind]; [|done].
    by destruct (py_truediv (v_sec u) (VInt 2)).
Qed.

(** The last row of the table with a primary between phases: the two
    voltages, one after the other. *)
Lemma kvs_fourth_row_between_phases (t : transformer) (u : voltages) :
  voltages_of t = Some u →
  py_eq (tip_trafo u) (VStr "MT") = false →
  lig_fas_t u = VStr "0" → lig_fas_s u = VStr "ABCN" →
  py_in (lig_fas_p u) phase_to_phase = true →
  py_in (lig_fas_p u) phase_to_neutral = false →
  kvs t = Ok (VStr (py_str (v_pri u) +:+ py_str (v_sec u))).
Proof.
  intros Hu Htip Ht Hs Hpp Hpn. rewrite (kvs_table t u Hu), Htip, Ht, Hs. cbn.
  unfold voltage_enroll. by rewrite Hpn, Hpp.
Qed.

(** The last row of the table with a primary to neutral: the quotient is
    a float, and a float and a text cannot be added. *)
Lemma kvs_fourth_row_to_neutral (t : transformer) (u : voltages) (f : spec_float) :
  voltages_of t = Some u →
  py_eq (tip_trafo u) (VStr "MT") = false →
  lig_fas_t u = VStr "0" → lig_fas_s u = VStr "ABCN" →
  py_in (lig_fas_p u) phase_to_neutral = true →
  v_pri u = VFloat f →
  kvs t = Raise (TypeError "unsupported operand type(s) for +: 'float' and 'str'").
Proof.
  intros Hu Htip Ht Hs Hpn Hf. rewrite (kvs_table t u Hu), Htip, Ht, Hs. cbn.
  unfold voltage_enroll. rewrite Hpn, Hf. reflexivity.
Qed.

End Voltages.

(** C2 on a transformer whose windings are both wye with neutral, at
    13.8 kV and 0.38 kV: the table gives it the fourth row, the primary
    voltage divided by the square root of three followed by the
    secondary voltage; the code adds the quotient, a float, to the text
    of the secondary voltage, which raises. *)
Lemma kvs_raises_on_wye_wye :
  voltages_of wye_wye_entity
  = Some (Voltages (VStr "T") (VStr "ABCN") (VStr "ABCN") (VStr "0") (VFloat f13_8) (VFloat f0_38))
  ∧ voltage_enroll (VStr "ABCN") (VFloat f13_8) = Ok (VFloat (SFdiv prec emax f13_8 sqrt3))
  ∧ py_str (VFloat (SFdiv prec emax f13_8 sqrt3)) = "7.967433714816837"
  ∧ kvs wye_wye_entity
    = Raise (TypeError "unsupported operand type(s) for +: 'float' and 'str'").
Proof. repeat split; vm_compute; reflexivity. Qed.


(** * Further properties of the code *)

(** ** The interpreter *)

Section InterpreterInvariants.

Context (namespace : string -> option (string -> result value)).

Lemma mem_string_spec (x : string) (l : list string) : mem_string x l = true ↔ x ∈ l.
Proof.
  unfold mem_string. rewrite existsb_exists. split.
  - intros (y & Hy & ->%String.eqb_eq). by apply list_elem_of_In.
  - intros H. exists x. split; [by apply list_elem_of_In | apply String.eqb_refl].
Qed.

Lemma targeted_false (c : config) (a : string) :
  targeted c a = false → ∀ s k, s ∈ c → k ∈ targets s → "_" +:+ k ≠ "_" +:+ a.
Proof.
  intros Hc s k Hs Hk Heq. apply underscore_inj in Heq. subst k.
  assert (targeted c a = true) as Hyes; [|congruence].
  unfold targeted. apply existsb_exists. exists s.
  split; [by apply list_elem_of_In | by apply mem_string_spec].
Qed.

(** X1: The interpreter writes the attributes its rules target and no other:
    an attribute [_a] that no rule of the configuration targets has, in
    the entity built, the default of the dataclass (or is absent, if the
    class has no such field). *)
Theorem untargeted_attribute_keeps_default (c : config) (r : row) (t : transformer)
    (a : string) :
  _create_transformer_from_row namespace c r = Ok t →
  targeted c a = false →
  t !! ("_" +:+ a) = new_transformer !! ("_" +:+ a).
Proof.
  intros Ht Ha. unfold _create_transformer_from_row in Ht.
  apply (process_sections_frame _ _ _ _ _ _ Ht). by apply targeted_false.
Qed.

Lemma store_all_keeps (t : transformer) kvs name :
  is_Some (t !! name) → is_Some (store_all t kvs !! name).
Proof.
  revert t. induction kvs as [|[k x] kvs IH]; intros t Hname; [done|].
  rewrite store_all_cons. apply IH. unfold assign.
  destruct (decide ("_" +:+ k = name)) as [<-|Hne].
  - rewrite lookup_insert_eq. by eexists.
  - by rewrite lookup_insert_ne.
Qed.

Lemma process_sections_keeps t c r t' name :
  process_sections namespace t c r = Ok t' →
  is_Some (t !! name) → is_Some (t' !! name).
Proof.
  revert t. induction c as [|s c IH]; intros t; cbn.
  - by intros [= <-].
  - destruct (process_section namespace t s r) as [t1|] eqn:E; cbn; [|done].
    intros H Hname. apply (IH _ H).
    destruct (process_section_stores _ _ _ _ _ E) as (kvs & _ & ->).
    by apply store_all_keeps.
Qed.

(** X2: The interpreter never removes an attribute: an entity it builds has
    every attribute the formatter and [kvs] read, so that serialising it
    cannot fail for a missing attribute. *)
Theorem built_entity_has_its_views (c : config) (r : row) (t : transformer) :
  _create_transformer_from_row namespace c r = Ok t →
  (∀ name, is_Some (new_transformer !! name) → is_Some (t !! name))
  ∧ is_Some (view_of t) ∧ is_Some (voltages_of t).
Proof.
  intros Ht. unfold _create_transformer_from_row in Ht.
  assert (Hall : ∀ name, is_Some (new_transformer !! name) → is_Some (t !! name)).
  { intros name. apply (process_sections_keeps _ _ _ _ _ Ht). }
  split; [done|].
  assert (Hhas : ∀ name, bool_decide (is_Some (new_transformer !! name)) = true →
                          ∃ x, t !! name = Some x).
  { intros name Hname. apply bool_decide_eq_true_1 in Hname. by apply Hall in Hname. }
  split.
  - unfold view_of.
    destruct (Hhas "_transformer") as [? ->]; [by vm_compute|].
    destruct (Hhas "_bus1") as [? ->]; [by vm_compute|].
    destruct (Hhas "_bus2") as [? ->]; [by vm_compute|].
    destruct (Hhas "_bus3") as [? ->]; [by vm_compute|].
    destruct (Hhas "_bus1_nodes") as [? ->]; [by vm_compute|].
    destruct (Hhas "_bus2_nodes") as [? ->]; [by vm_compute|].
    destruct (Hhas "_bus3_nodes") as [? ->]; [by vm_compute|].
    destruct (Hhas "_conn_p") as [? ->]; [by vm_compute|].
    destruct (Hhas "_conn_s") as [? ->]; [by vm_compute|].
    destruct (Hhas "_conn_t") as [? ->]; [by vm_compute|].
    destruct (Hhas "_MRT") as [? ->]; [by vm_compute|].
    destruct (Hhas "_windings") as [? ->]; [by vm_compute|].
    destruct (Hhas "_phases") as [? ->]; [by vm_compute|].
    destruct (Hhas "_kvas") as [? ->]; [by vm_compute|].
    destruct (Hhas "_tap") as [? ->]; [by vm_compute|].
    destruct (Hhas "_loadloss") as [? ->]; [by vm_compute|].
    destruct (Hhas "_noloadloss") as [? ->]; [by vm_compute|].
    by eexists.
  - unfold voltages_of.
    destruct (Hhas "_tip_trafo") as [? ->]; [by vm_compute|].
    destruct (Hhas "_lig_fas_p") as [? ->]; [by vm_compute|].
    destruct (Hhas "_lig_fas_s") as [? ->]; [by vm_compute|].
    destruct (Hhas "_lig_fas_t") as [? ->]; [by vm_compute|].
    destruct (Hhas "_v_pri") as [? ->]; [by vm_compute|].
    destruct (Hhas "_v_sec") as [? ->]; [by vm_compute|].
    by eexists.
Qed.

End InterpreterInvariants.

Lemma untargeted_attribute_keeps_default_witness :
  built (_create_transformer_from_row sample_namespace sample_config sample_row)
    !! ("_" +:+ "lig_fas_p")
  = new_transformer !! ("_" +:+ "lig_fas_p").
Proof.
  apply (untargeted_attribute_keeps_default sample_namespace sample_config sample_row).
  - decide_by_computing.
  - vm_compute; reflexivity.
Defined.

Lemma built_entity_has_its_views_witness :
  (∀ name, is_Some (new_transformer !! name) →
           is_Some (built (_create_transformer_from_row sample_namespace sample_config
                             sample_row) !! name))
  ∧ is_Some (view_of (built (_create_transformer_from_row sample_namespace sample_config
                               sample_row)))
  ∧ is_Some (voltages_of (built (_create_transformer_from_row sample_namespace sample_config
                                   sample_row))).
Proof.
  apply (built_entity_has_its_views sample_namespace sample_config sample_row).
  decide_by_computing.
Defined.

(** ** The rules of a section *)

Section Rules.

Context (namespace : string -> option (string -> result value)).

Local Arguments row_get : simpl never.
Local Arguments calculated_value : simpl never.






(** X5: An indirect rule given as a plain column does what a direct rule
    does, whatever the namespace holds. *)
Theorem plain_indirect_rules_are_direct (t : transformer) (value : list (string * string))
    (r : row) :
  _process_indirect_mapping namespace t (prod_map id Column <$> value) r
  = _process_direct_mapping t value r.
Proof.
  revert t. induction value as [|[k column] value IH]; intros t; cbn; [done|].
  destruct (row_get r column); cbn; [|done].
  destruct (setattr t _ _); cbn; [apply IH | done].
Qed.






End Rules.





(** ** A phase code without a case *)

Section VoltageRows.

(** X8: The third row of [kvs] takes the secondary code [AC], for which
    [voltage_enroll_sec] has no case: the secondary voltage of such a
    transformer is printed as [None]. *)
Theorem kvs_of_secondary_AC (t : transformer) (u : voltages) (primary : value) :
  voltages_of t = Some u →
  py_eq (tip_trafo u) (VStr "MT") = false →
  lig_fas_t u = VStr "XX" →
  lig_fas_s u = VStr "AC" →
  voltage_enroll (lig_fas_p u) (v_pri u) = Ok primary →
  kvs t = Ok (VStr (py_str primary +:+ " None")).
Proof.
  intros Hu Htip Ht Hs Hp. rewrite (kvs_table t u Hu), Htip, Ht, Hs. cbn. by rewrite Hp.
Qed.

End VoltageRows.

Lemma kvs_of_secondary_AC_witness :
  kvs open_delta_entity = Ok (VStr (py_str (VStr "13.8") +:+ " None")).
Proof.
  apply (kvs_of_secondary_AC open_delta_entity open_delta_voltages); vm_compute; reflexivity.
Defined.

(** ** Serialisation *)

Section Serialisation.

Local Arguments String.append : simpl never.

(** X9: With a winding count that is not an integer, as in an entity whose
    windings were never set, [full_string] raises the [TypeError] of
    [range] and leaves the entity as it was. *)
Theorem full_string_needs_integer_windings (t : transformer) (v : view) (e : exn) :
  view_of t = Some v →
  py_range (windings v) = Raise e →
  full_string t = (Raise e, t).
Proof.
  intros Hv Hn.
  pose proof (pattern_MRT_view t v Hv) as HMRT.
  destruct (view_of_lookups t v Hv) as
    (Hid & Hb1 & Hb2 & Hb3 & Hn1 & Hn2 & Hn3 & Hcp & Hcs & Hct & Hmrt & Hw & _).
  unfold full_string, adapting_string_variables, getattr.
  rewrite Hmrt, Hb3, Hb1, Hid, Hn1, Hb2, Hn2, Hn3, Hcp, Hcs, Hct, Hw.
  cbn [mbind result_bind]. unfold mrt_flag in HMRT.
  destruct (py_eq (mrt v) (VInt 1)); destruct (py_eq (bus3 v) (VStr "0"));
    cbn [negb mbind result_bind]; rewrite ?HMRT by done; cbn [mbind result_bind];
    by rewrite Hn.
Qed.

(** X10: A loss that cannot be formatted makes [full_string] raise after it
    has stored its texts: no text is returned, yet [_kvas] holds the text
    of the ratings and the method [kvs] is hidden. *)
Theorem failed_formatting_has_changed_the_entity (t : transformer) (v : view) (k : value)
    (n : nat) (e : exn) :
  view_of t = Some v →
  t !! "kvs" = None →
  kvs t = Ok k →
  py_range (windings v) = Ok n →
  py_format_3f (loadloss v) = Raise e →
  (full_string t).1 = Raise e
  ∧ (full_string t).2 !! "_kvas" = Some (VStr (per_winding (kvas v) n))
  ∧ (full_string t).2 !! "kvs" = Some k.
Proof.
  intros Hv Hfresh Hk Hn Hll. unfold full_string.
  rewrite (adapting_string_variables_view t v k n) by done. cbn [fst snd].
  destruct (store_strings_lookups t k (buses_text v) (conns_text v)
              (per_winding (kvas v) n) (per_winding (tap v) n))
    as (Hkvs' & Hbuses & Hconns & Hkvas' & Htaps).
  split; [|done].
  destruct (view_of_lookups t v Hv) as
    (Hid & _ & Hb2 & _ & _ & _ & _ & _ & _ & _ & _ & Hw & Hph & _ & _ & Hl & Hnl).
  unfold render, getattr.
  rewrite Hkvs', Hbuses, Hconns, Hkvas', Htaps.
  rewrite !store_strings_frame by reflexivity.
  rewrite Hid, Hw, Hph, Hl. cbn [mbind result_bind]. by rewrite Hll.
Qed.

(** X11: A winding count of zero or less is taken as it is: the lists of taps
    and of ratings of the block are empty. *)
Theorem no_windings_no_taps (t : transformer) (v : view) (k : value) (z : Z)
    (ll nll : string) :
  view_of t = Some v →
  t !! "kvs" = None →
  kvs t = Ok k →
  windings v = VInt z →
  z <= 0 →
  py_format_3f (loadloss v) = Ok ll →
  py_format_3f (noloadloss v) = Ok nll →
  (full_string t).2 !! "taps" = Some (VStr "")
  ∧ (full_string t).2 !! "_kvas" = Some (VStr "")
  ∧ (full_string t).1
    = Ok ("New " +:+ dq +:+ "Transformer.TRF_" +:+ py_str (ident v) +:+ dq
          +:+ " phases=" +:+ py_str (phases v) +:+ " "
          +:+ "windings=" +:+ str_int z +:+ " "
          +:+ "buses=[" +:+ buses_text v +:+ "] "
          +:+ "conns=[" +:+ conns_text v +:+ "] "
          +:+ "kvs=[" +:+ py_str k +:+ "] "
          +:+ "taps=[] kvas=[] "
          +:+ losses_text ll nll +:+ mrt_block v +:+ reactor_line v).
Proof.
  intros Hv Hfresh Hk Hw Hz Hll Hnll.
  assert (Hn : py_range (windings v) = Ok 0%nat).
  { rewrite Hw. cbn. f_equal. lia. }
  rewrite (full_string_view t v k 0 ll nll) by done. cbn [fst snd].
  destruct (store_strings_lookups t k (buses_text v) (conns_text v)
              (per_winding (kvas v) 0) (per_winding (tap v) 0))
    as (_ & _ & _ & Hkvas' & Htaps).
  repeat split; [done..|].
  unfold transformer_head. rewrite Hw. cbn [py_str per_winding replicate join].
  f_equal. by rewrite !string_app_assoc.
Qed.

(** X12: [__repr__] returns the text of [full_string] and changes the entity
    as [full_string] does; so once an entity has been printed, it cannot
    be serialised any more. *)
Theorem repr_spoils_full_string (t : transformer) :
  __repr__ t = full_string t
  ∧ ∀ text, (__repr__ t).1 = Ok text → ∃ e, (full_string (__repr__ t).2).1 = Raise e.
Proof.
  split; [done|]. intros text. change (__repr__ t) with (full_string t).
  apply full_string_twice_raises.
Qed.

Lemma unread_cases (name : string) :
  mem_string name unread = true →
  name = "_kvs" ∨ name = "_feeder" ∨ name = "_ten_lin_se"
  ∨ name = "_suffix_bus1" ∨ name = "_suffix_bus2" ∨ name = "_suffix_bus3".
Proof.
  unfold mem_string, unread. cbn [existsb].
  rewrite !orb_true_iff, !String.eqb_eq. intuition congruence.
Qed.

(** X13: The block does not depend on the attributes [_kvs], [_feeder],
    [_ten_lin_se] and [_suffix_bus1] to [_suffix_bus3]: whatever a rule
    stores there, [full_string] returns the same text. *)
Theorem full_string_ignores_unread_attributes (t : transformer) (name : string) (x : value) :
  mem_string name unread = true →
  (full_string (assign t name x)).1 = (full_string t).1.
Proof.
  intros Hname.
  assert (Hget : ∀ n, n ≠ name → getattr (assign t name x) n = getattr t n).
  { intros n Hn. unfold getattr, assign. by rewrite lookup_insert_ne. }
  assert (Hlook : ∀ n, n ≠ name → assign t name x !! n = t !! n).
  { intros n Hn. unfold assign. by rewrite lookup_insert_ne. }
  assert (Hadapt : adapting_string_variables (assign t name x) = adapting_string_variables t).
  { unfold adapting_string_variables, pattern_MRT, repeated, call_kvs, kvs.
    apply unread_cases in Hname.
    repeat destruct Hname as [->|Hname]; try subst name;
      rewrite !Hget, !Hlook by done; reflexivity. }
  unfold full_string. rewrite Hadapt.
  destruct (adapting_string_variables t) as [[[[[[k buses] conns] kvas] taps] MRT]|e];
    cbn [fst]; [|done].
  assert (Hstored : ∀ n, n ≠ name →
            getattr (store_strings (assign t name x) k buses conns kvas taps) n
            = getattr (store_strings t k buses conns kvas taps) n).
  { intros n Hn. unfold getattr, store_strings, assign.
    destruct (decide (n = "taps")) as [->|?]; [by rewrite !lookup_insert_eq|].
    rewrite 2!(lookup_insert_ne _ "taps") by done.
    destruct (decide (n = "_kvas")) as [->|?]; [by rewrite !lookup_insert_eq|].
    rewrite 2!(lookup_insert_ne _ "_kvas") by done.
    destruct (decide (n = "conns")) as [->|?]; [by rewrite !lookup_insert_eq|].
    rewrite 2!(lookup_insert_ne _ "conns") by done.
    destruct (decide (n = "buses")) as [->|?]; [by rewrite !lookup_insert_eq|].
    rewrite 2!(lookup_insert_ne _ "buses") by done.
    destruct (decide (n = "kvs")) as [->|?]; [by rewrite !lookup_insert_eq|].
    rewrite 2!(lookup_insert_ne _ "kvs") by done.
    by rewrite lookup_insert_ne. }
  unfold render, pattern_reactor.
  apply unread_cases in Hname.
  repeat destruct Hname as [->|Hname]; try subst name;
    rewrite !Hstored by done; reflexivity.
Qed.

End Serialisation.

Lemma full_string_needs_integer_windings_witness :
  full_string new_transformer
  = (Raise (TypeError "'str' object cannot be interpreted as an integer"), new_transformer).
Proof.
  apply (full_string_needs_integer_windings new_transformer default_view);
    vm_compute; reflexivity.
Defined.

Lemma failed_formatting_has_changed_the_entity_witness :
  (full_string text_loss_entity).1
  = Raise (ValueError "Unknown format code 'f' for object of type 'str'")
  ∧ (full_string text_loss_entity).2 !! "_kvas"
    = Some (VStr (per_winding (kvas text_loss_view) 2))
  ∧ (full_string text_loss_entity).2 !! "kvs" = Some (VStr "13.8 0.38").
Proof.
  apply (failed_formatting_has_changed_the_entity text_loss_entity text_loss_view
           (VStr "13.8 0.38") 2);
    vm_compute; reflexivity.
Defined.

Lemma no_windings_no_taps_witness :
  (full_string no_winding_entity).2 !! "taps" = Some (VStr "")
  ∧ (full_string no_winding_entity).2 !! "_kvas" = Some (VStr "")
  ∧ (full_string no_winding_entity).1
    = Ok ("New " +:+ dq +:+ "Transformer.TRF_" +:+ py_str (ident no_winding_view) +:+ dq
          +:+ " phases=" +:+ py_str (phases no_winding_view) +:+ " "
          +:+ "windings=" +:+ str_int 0 +:+ " "
          +:+ "buses=[" +:+ buses_text no_winding_view +:+ "] "
          +:+ "conns=[" +:+ conns_text no_winding_view +:+ "] "
          +:+ "kvs=[" +:+ py_str (VStr "13.8 0.38") +:+ "] "
          +:+ "taps=[] kvas=[] "
          +:+ losses_text "1.600" "0.400" +:+ mrt_block no_winding_view
          +:+ reactor_line no_winding_view).
Proof.
  apply (no_windings_no_taps no_winding_entity no_winding_view (VStr "13.8 0.38") 0
           "1.600" "0.400");
    first [lia | vm_compute; reflexivity].
Defined.

Lemma full_string_ignores_unread_attributes_witness :
  (full_string (assign mrt_entity "_feeder" (VStr "F2"))).1 = (full_string mrt_entity).1.
Proof. apply full_string_ignores_unread_attributes. vm_compute; reflexivity. Defined.

(** ** The loop over the rows *)

Section Rows.

Context (namespace : string -> option (string -> result value)).
Context (artifact_id : string -> value -> string).

(** X14: When the loop over the frame ends, it has built one entity per row,
    and the entity of rank [i] is the one built from the row of rank
    [i]. *)
Theorem one_entity_per_row (c : config) (rows : list row) (ts : list transformer) :
  build_rows namespace c rows = Ok ts →
  length ts = length rows
  ∧ ∀ i r, rows !! i = Some r →
      ∃ t, ts !! i = Some t ∧ _create_transformer_from_row namespace c r = Ok t.
Proof.
  intros H%build_rows_spec. split; [symmetry; by eapply Forall2_length|].
  intros i r Hr. destruct (Forall2_lookup_l _ _ _ _ _ H Hr) as (t & Ht & Hbuilt).
  by exists t.
Qed.

Lemma arquivo_missing (c : config) :
  (∀ name, Arquivo name ∉ c) → arquivo c = Raise (KeyError "arquivo").
Proof.
  induction c as [|s c IH]; intros Hc; [done|].
  assert (arquivo c = Raise (KeyError "arquivo")) as Hrest.
  { apply IH. intros name Hin. apply (Hc name). by right. }
  destruct s as [?|?|?|?|name|?]; cbn; try done. exfalso. apply (Hc name). left.
Qed.

(** X15: The file name of the configuration is read after the loop: a
    configuration without [arquivo] has all its rows interpreted first,
    and the batch raises [KeyError] on [arquivo] only if every row built;
    otherwise the exception of the loop is the one raised. *)
Theorem missing_file_name_is_noticed_last
    (json : gmap string (gmap string (gmap string config))) (c : config) (rows : list row) :
  transformer_config_of json = Ok c →
  (∀ name, Arquivo name ∉ c) →
  (∀ ts, build_rows namespace c rows = Ok ts →
         create_transformer_from_json namespace artifact_id json rows
         = Raise (KeyError "arquivo"))
  ∧ (∀ e, build_rows namespace c rows = Raise e →
          create_transformer_from_json namespace artifact_id json rows = Raise e).
Proof.
  intros Hc Hno. split.
  - intros ts Hts. unfold create_transformer_from_json.
    rewrite Hc. cbn. rewrite Hts. cbn. by rewrite (arquivo_missing c Hno).
  - intros e He. by apply batch_raises with c.
Qed.

End Rows.

Lemma one_entity_per_row_witness :
  length sample_entities = length sample_rows
  ∧ ∀ i r, sample_rows !! i = Some r →
      ∃ t, sample_entities !! i = Some t
           ∧ _create_transformer_from_row sample_namespace sample_config r = Ok t.
Proof. apply one_entity_per_row. decide_by_computing. Defined.

Lemma missing_file_name_is_noticed_last_witness :
  (∀ ts, build_rows sample_namespace nameless_config sample_rows = Ok ts →
         create_transformer_from_json sample_namespace sample_artifact_id
           (document nameless_config) sample_rows
         = Raise (KeyError "arquivo"))
  ∧ (∀ e, build_rows sample_namespace nameless_config sample_rows = Raise e →
          create_transformer_from_json sample_namespace sample_artifact_id
            (document nameless_config) sample_rows = Raise e).
Proof.
  apply (missing_file_name_is_noticed_last sample_namespace sample_artifact_id
           (document nameless_config) nameless_config sample_rows).
  - vm_compute; reflexivity.
  - intros name H. unfold nameless_config in H.
    repeat (apply elem_of_cons in H as [H|H]; [discriminate H|]).
    by apply elem_of_nil in H.
Defined.

(** ** Sections without a branch *)

Section Skipped.

Context (namespace : string -> option (string -> result value)).

(** X16: The interpreter has no branch for any other key and none for
    [arquivo]: a configuration builds the entity that it builds without
    such entries, and a section under a misspelt key is passed over
    without an error. *)
Theorem unknown_sections_are_skipped (c : config) (r : row) :
  _create_transformer_from_row namespace (List.filter interpreted c) r
  = _create_transformer_from_row namespace c r.
Proof.
  unfold _create_transformer_from_row. generalize new_transformer.
  induction c as [|s c IH]; intros t; [done|].
  destruct s; cbn [List.filter interpreted process_sections process_section];
    cbn [mbind result_bind]; try apply IH;
    match goal with
    | |- context [mbind _ ?x] => destruct x; cbn [mbind result_bind]; [apply IH | done]
    end.
Qed.

End Skipped.

(** ** The schema registry *)

Section Registry.

Import Core.

Lemma tables_of_spec (entries : list (string * json)) (ts : list (string * Table)) :
  tables_of entries = Ok ts →
  Forall2 (fun entry table =>
             table.1 = entry.1 ∧ name table.2 = entry.1
             ∧ subscript entry.2 "columns" = Ok (columns table.2)
             ∧ subscript entry.2 "type" = Ok (data_types table.2)
             ∧ subscript entry.2 "ignore_geometry" = Ok (ignore_geometry table.2))
    entries ts.
Proof.
  revert ts. induction entries as [|[k d] entries IH]; intros ts; cbn.
  - intros [= <-]. constructor.
  - destruct (subscript d "columns") as [c|] eqn:Hc; cbn; [|done].
    destruct (subscript d "type") as [t|] eqn:Ht; cbn; [|done].
    destruct (subscript d "ignore_geometry") as [g|] eqn:Hg; cbn; [|done].
    destruct (tables_of entries) as [ts'|]; cbn; [|done].
    intros [= <-]. constructor; [done|]. by apply IH.
Qed.

(** X17: The registry mirrors the document: [_create_tables] returns one
    table per entry of [configuration.tables], in the order of the
    document, each under the key of its entry, named after that key and
    holding the entry's [columns], [type] and [ignore_geometry]. *)
Theorem created_tables_mirror_the_document (data : json) (ts : list (string * Table)) :
  _create_tables data = Ok ts →
  ∃ configuration entries,
    subscript data "configuration" = Ok configuration
    ∧ subscript configuration "tables" = Ok (JObject entries)
    ∧ ts.*1 = entries.*1
    ∧ Forall2 (fun entry table =>
                 table.1 = entry.1 ∧ name table.2 = entry.1
                 ∧ subscript entry.2 "columns" = Ok (columns table.2)
                 ∧ subscript entry.2 "type" = Ok (data_types table.2)
                 ∧ subscript entry.2 "ignore_geometry" = Ok (ignore_geometry table.2))
        entries ts.
Proof.
  unfold _create_tables.
  destruct (subscript data "configuration") as [configuration|] eqn:Hc; cbn; [|done].
  destruct (subscript configuration "tables") as [tables|] eqn:Ht; cbn; [|done].
  destruct tables; cbn; try done.
  intros H%tables_of_spec. exists configuration, fields.
  split; [done|]. split; [done|]. split; [|done].
  clear Ht. induction H as [|entry table entries' ts' (Hk & _) _ IH]; [done|].
  rewrite !fmap_cons. by rewrite Hk, IH.
Qed.

(** X18: A table whose description lacks [columns], [type] or
    [ignore_geometry] makes the whole registry fail, with [KeyError] on
    the first of the three that is missing, even when the tables declared
    before it are complete. *)
Theorem incomplete_table_fails_the_registry
    (before after : list (string * json)) (k : string) (fields : list (string * json))
    (complete : list (string * Table)) :
  tables_of before = Ok complete →
  (assoc "columns" fields = None →
   tables_of (before ++ (k, JObject fields) :: after) = Raise (KeyError "columns"))
  ∧ (is_Some (assoc "columns" fields) → assoc "type" fields = None →
     tables_of (before ++ (k, JObject fields) :: after) = Raise (KeyError "type"))
  ∧ (is_Some (assoc "columns" fields) → is_Some (assoc "type" fields) →
     assoc "ignore_geometry" fields = None →
     tables_of (before ++ (k, JObject fields) :: after) = Raise (KeyError "ignore_geometry")).
Proof.
  intros Hbefore.
  assert (Happ : ∀ rest, tables_of (before ++ rest)
                         = ts ← tables_of before; more ← tables_of rest; Ok (ts ++ more)).
  { clear. intros rest. induction before as [|[k d] before IH]; cbn.
    - by destruct (tables_of rest).
    - destruct (subscript d "columns"); cbn; [|done].
      destruct (subscript d "type"); cbn; [|done].
      destruct (subscript d "ignore_geometry"); cbn; [|done].
      rewrite IH. destruct (tables_of before); cbn; [|done].
      by destruct (tables_of rest). }
  rewrite Happ, Hbefore. cbn.
  repeat split.
  - by intros ->.
  - by intros [? ->] ->.
  - by intros [? ->] [? ->] ->.
Qed.

Section Frames.

Context (frame : Type).
Context (read_file : string -> Table -> result frame).
Context (astype : frame -> json -> result frame).
Context (memory_usage_sum : frame -> value).
Context (clock : nat -> spec_float).

(** X19: With [runs] at zero or below, the inner loop does not run and the
    averages divide by the length of an empty list: without tables the
    result is the empty dictionary, with a table the call raises
    [ZeroDivisionError] before it reads anything. *)
Theorem no_run_no_average (tables : list (string * Table)) (file_name : string) (runs : Z) :
  runs <= 0 →
  create_geodataframes frame read_file astype memory_usage_sum clock tables file_name runs
  = match tables with
    | [] => Ok []
    | _ :: _ => Raise ZeroDivisionError
    end.
Proof.
  intros Hruns. unfold create_geodataframes. destruct tables as [|[k t] rest]; [done|].
  cbn. replace (Z.to_nat runs) with 0%nat by lia. reflexivity.
Qed.

Lemma load_runs_spec (n : nat) (file_name : string) (table : Table) g g' :
  load_runs frame read_file astype clock n file_name table g = Ok g' →
  length (load_times g') = (length (load_times g) + n)%nat
  ∧ length (conversion_times g') = (length (conversion_times g) + n)%nat
  ∧ ticks g' = (ticks g + 3 * n)%nat
  ∧ match n with
    | O => gdf_converted g' = gdf_converted g
    | S _ => ∃ raw converted,
        read_file file_name table = Ok raw
        ∧ astype raw (data_types table) = Ok converted
        ∧ gdf_converted g' = Some converted
    end.
Proof.
  revert g. induction n as [|n IH]; intros g; cbn.
  - intros [= <-]. repeat split; lia.
  - destruct (read_file file_name table) as [raw|] eqn:Hraw; cbn; [|done].
    destruct (astype raw (data_types table)) as [converted|] eqn:Hconv; cbn; [|done].
    intros (Hl & Hc & Ht & Hg)%IH. cbn in *. rewrite !length_app in *. cbn in *.
    repeat split; [lia..|].
    exists raw, converted. repeat split; [done..|].
    destruct n; [done|].
    destruct Hg as (raw0 & converted0 & [= <-] & Hconv0 & ->). congruence.
Qed.

(** X20: When [create_geodataframes] returns, it holds one entry per table in
    the order of the registry; each entry carries the flag of its table
    and the frame read from the file and converted to the declared types;
    and, if there is a table at all, [runs] was positive. *)
Theorem one_frame_per_table (tables : list (string * Table)) (file_name : string) (runs : Z)
    (stats : list (string * statistics frame)) :
  create_geodataframes frame read_file astype memory_usage_sum clock tables file_name runs
  = Ok stats →
  stats.*1 = tables.*1
  ∧ (tables ≠ [] → 0 < runs)
  ∧ Forall2 (fun table entry =>
               stat_ignore_geometry entry.2 = ignore_geometry table.2
               ∧ ∃ raw, read_file file_name table.2 = Ok raw
                        ∧ astype raw (data_types table.2) = Ok (gdf entry.2))
      tables stats.
Proof.
  intros H. split; [|split].
  - unfold create_geodataframes in H. revert stats H. generalize 0%nat.
    induction tables as [|[k t] tables IH]; intros ticks0 stats; cbn.
    + by intros [= <-].
    + destruct (load_runs _ _ _ _ _ _ _ _) as [g|]; cbn; [|done].
      destruct (summarize _ _ _ _) as [s|]; cbn; [|done].
      destruct (load_tables _ _ _ _ _ tables _ _ _) as [more|] eqn:E; cbn; [|done].
      intros [= <-]. cbn. f_equal. by apply (IH _ _ E).
  - intros Htables. destruct (Z.le_gt_cases runs 0) as [Hle|]; [|lia].
    destruct tables as [|[k t] rest]; [done|].
    unfold create_geodataframes in H. cbn in H.
    replace (Z.to_nat runs) with 0%nat in H by lia. done.
  - unfold create_geodataframes in H. revert stats H. generalize 0%nat.
    induction tables as [|[k t] tables IH]; intros ticks0 stats; cbn.
    + intros [= <-]. constructor.
    + destruct (load_runs _ _ _ _ _ _ _ _) as [g|] eqn:Hg; cbn; [|done].
      destruct (summarize _ _ _ _) as [s|] eqn:Hs; cbn; [|done].
      destruct (load_tables _ _ _ _ _ tables _ _ _) as [more|] eqn:E; cbn; [|done].
      intros [= <-]. constructor; [|by apply (IH _ _ E)]. cbn.
      apply load_runs_spec in Hg as (_ & _ & _ & Hlast).
      unfold summarize in Hs.
      destruct (py_sum (load_times g)); cbn in Hs; [|done].
      destruct (py_truediv _ _); cbn in Hs; [|done].
      destruct (py_sum (conversion_times g)); cbn in Hs; [|done].
      destruct (py_truediv _ _); cbn in Hs; [|done].
      destruct (gdf_converted g) as [converted|] eqn:Hconv; cbn in Hs; [|done].
      destruct (py_truediv _ _); cbn in Hs; [|done].
      injection Hs as <-. cbn. split; [done|].
      destruct (Z.to_nat runs).
      * cbn in Hlast. congruence.
      * destruct Hlast as (raw & converted' & Hraw & Hastype & Hsome).
        exists raw. split; [done|]. congruence.
Qed.

End Frames.

Lemma created_tables_mirror_the_document_witness :
  ∃ configuration entries,
    subscript sample_data "configuration" = Ok configuration
    ∧ subscript configuration "tables" = Ok (JObject entries)
    ∧ sample_tables.*1 = entries.*1
    ∧ Forall2 (fun entry table =>
                 table.1 = entry.1 ∧ name table.2 = entry.1
                 ∧ subscript entry.2 "columns" = Ok (columns table.2)
                 ∧ subscript entry.2 "type" = Ok (data_types table.2)
                 ∧ subscript entry.2 "ignore_geometry" = Ok (ignore_geometry table.2))
        entries sample_tables.
Proof. apply created_tables_mirror_the_document. vm_compute; reflexivity. Defined.

Lemma incomplete_table_fails_the_registry_witness :
  tables_of (sample_entries ++ ("SEGCON", JObject [("columns", JArray [])]) :: [])
  = Raise (KeyError "type").
Proof.
  pose proof (incomplete_table_fails_the_registry sample_entries [] "SEGCON"
                [("columns", JArray [])] sample_tables) as H.
  destruct H as (_ & H & _); [vm_compute; reflexivity|].
  apply H; [by eexists | reflexivity].
Defined.

Lemma no_run_no_average_witness :
  create_geodataframes string sample_read_file sample_astype sample_memory_usage_sum
    sample_clock sample_tables "base.gdb" 0
  = Raise ZeroDivisionError.
Proof.
  apply (no_run_no_average string sample_read_file sample_astype sample_memory_usage_sum
           sample_clock sample_tables "base.gdb" 0).
  lia.
Defined.

Lemma one_frame_per_table_witness :
  sample_statistics.*1 = sample_tables.*1
  ∧ (sample_tables ≠ [] → 0 < 2)
  ∧ Forall2 (fun table entry =>
               stat_ignore_geometry entry.2 = ignore_geometry table.2
               ∧ ∃ raw, sample_read_file "base.gdb" table.2 = Ok raw
                        ∧ sample_astype raw (data_types table.2) = Ok (gdf entry.2))
      sample_tables sample_statistics.
Proof.
  apply (one_frame_per_table string sample_read_file sample_astype sample_memory_usage_sum
           sample_clock sample_tables "base.gdb" 2 sample_statistics).
  vm_compute; reflexivity.
Defined.

End Registry.
